(** * The swipe pager of react-native-tab-view (src/Pager.js)

    The pager is a React component whose behaviour lives in a graph of
    animation nodes (react-native-reanimated).  Every node constructor of
    the library used by Pager.js becomes a Rocq function that builds a
    computation over the component instance, so that [translateX] and
    [transitionTo] below read like the JavaScript they come from.

    Numbers are rationals ([Q]); a flag is the number 1 or 0 and is read
    through [truthy], as the node library does.  A computation returns its
    value, the updated instance and the list of observable events of the
    evaluation: every [divide] that was evaluated, and what the [call]
    callback did on the JavaScript side. *)

From Stdlib Require Import QArith Qabs Qround Qminmax ZArith List String Bool Lia Lqa.
Import ListNotations.
Open Scope Q_scope.

(** ** Numbers *)

Definition TRUE : Q := 1.
Definition FALSE : Q := 0.
Definition NOOP : Q := 0.

Definition truthy (x : Q) : bool := negb (Qeq_bool x 0).
Definition ofbool (b : bool) : Q := if b then 1 else 0.

(** [a > b] on numbers, as a boolean. *)
Definition Qgtb (a b : Q) : bool := negb (Qle_bool a b).

(** JavaScript's [Math.round]: the nearest integer, halves going up. *)
Definition Math_round (x : Q) : Z := Qfloor (x + (1 # 2)).

(** [a || b] on numbers: the first operand unless it is falsy. *)
Definition js_or (a b : Q) : Q := if truthy a then a else b.

(** ** types.js *)

Record Route := { key : string }.

Record NavigationState := { index : Q; routes : list Route }.

Record Layout := { width : Q; height : Q }.

(** The props of the component that the graph depends on; [jumpTo] is a
    callback of the host and shows up as the event [EvJumpTo]. *)
Record Props := {
  swipeEnabled : bool;
  navigationState : NavigationState;
  layout : Layout
}.

(** [routes[i]] for an integer [i]: [undefined] outside the array. *)
Definition array_get {A : Type} (l : list A) (i : Z) : option A :=
  if (i <? 0)%Z then None else nth_error l (Z.to_nat i).

(** States of the gesture handler (react-native-gesture-handler [State]). *)
Module State.
Definition UNDETERMINED : Q := 0.
Definition FAILED : Q := 1.
Definition BEGAN : Q := 2.
Definition CANCELLED : Q := 3.
Definition ACTIVE : Q := 4.
Definition END : Q := 5.
End State.

(** ** The component instance *)

(** The animated values held by a [Pager]: its own fields and the three
    values that [transitionTo] allocates for the spring ([state.time],
    [state.finished], [config.toValue]); [state.position] and
    [state.velocity] are the fields [_position] and [_velocityX]. *)
Inductive Cell : Set :=
  | _velocityX | _gestureX | _gestureState | _offsetX
  | _position | _index | _nextIndex
  | _isSwiping | _isSwipeGesture
  | _routesLength | _layoutWidth
  | state_time | state_finished | config_toValue.

Definition Cell_eqb (a b : Cell) : bool :=
  match a, b with
  | _velocityX, _velocityX | _gestureX, _gestureX
  | _gestureState, _gestureState | _offsetX, _offsetX
  | _position, _position | _index, _index | _nextIndex, _nextIndex
  | _isSwiping, _isSwiping | _isSwipeGesture, _isSwipeGesture
  | _routesLength, _routesLength | _layoutWidth, _layoutWidth
  | state_time, state_time | state_finished, state_finished
  | config_toValue, config_toValue => true
  | _, _ => false
  end.

Record Clock := { running : bool; now : Q }.

Record Pager := {
  props : Props;
  values : Cell -> Q;
  (* the private value of the [onChange] node; [None] is [undefined] *)
  prevValue : option Q;
  _clock : Clock
}.

Definition update (c : Cell) (x : Q) (f : Cell -> Q) : Cell -> Q :=
  fun c' => if Cell_eqb c c' then x else f c'.

(** [value.setValue(x)] *)
Definition setValue (c : Cell) (x : Q) (this : Pager) : Pager :=
  {| props := props this; values := update c x (values this);
     prevValue := prevValue this; _clock := _clock this |}.

Definition setPrevValue (x : Q) (this : Pager) : Pager :=
  {| props := props this; values := values this;
     prevValue := Some x; _clock := _clock this |}.

Definition setRunning (b : bool) (this : Pager) : Pager :=
  {| props := props this; values := values this; prevValue := prevValue this;
     _clock := {| running := b; now := now (_clock this) |} |}.

Definition setNow (t : Q) (this : Pager) : Pager :=
  {| props := props this; values := values this; prevValue := prevValue this;
     _clock := {| running := running (_clock this); now := t |} |}.

Definition setProps (p : Props) (this : Pager) : Pager :=
  {| props := p; values := values this; prevValue := prevValue this;
     _clock := _clock this |}.

(** ** Evaluation of nodes *)

Inductive Event :=
  | EvDivide (numerator denominator : Q)   (* a [divide] node was evaluated *)
  | EvJumpTo (routeKey : string)           (* [this.props.jumpTo(key)] *)
  | EvTypeError.                           (* [route.key] with [route] undefined *)

Definition M (A : Type) : Type := Pager -> A * Pager * list Event.

Definition ret {A : Type} (a : A) : M A := fun this => (a, this, []).

Definition bind {A B : Type} (m : M A) (k : A -> M B) : M B :=
  fun this =>
    let '(a, this1, ev1) := m this in
    let '(b, this2, ev2) := k a this1 in
    (b, this2, ev1 ++ ev2).

Declare Scope node_scope.
Delimit Scope node_scope with node.
Notation "x <- m ;; k" := (bind m (fun x => k))
  (at level 61, m at next level, right associativity) : node_scope.
Notation "m ;; k" := (bind m (fun _ => k))
  (at level 61, right associativity) : node_scope.
Open Scope node_scope.

Definition Node : Type := M Q.

Definition result {A} (r : A * Pager * list Event) : A := fst (fst r).
Definition after {A} (r : A * Pager * list Event) : Pager := snd (fst r).
Definition events {A} (r : A * Pager * list Event) : list Event := snd r.

(** *** Node constructors of the animation library

    They live in a module named after the library object they are taken
    from in Pager.js ([const { cond, set, ... } = Animated]). *)

Module Animated.

Definition num (x : Q) : Node := ret x.

Definition value (c : Cell) : Node := fun this => (values this c, this, []).

Definition set (c : Cell) (n : Node) : Node :=
  x <- n ;; fun this => (x, setValue c x this, []).

Fixpoint block (l : list Node) : Node :=
  match l with
  | [] => ret 0
  | [n] => n
  | n :: l' => n ;; block l'
  end.

(** [cond(c, t, e)] evaluates only the branch that is taken. *)
Definition cond (c t e : Node) : Node :=
  x <- c ;; if truthy x then t else e.

Definition abs (a : Node) : Node := x <- a ;; ret (Qabs x).
Definition add (a b : Node) : Node := x <- a ;; y <- b ;; ret (x + y).
Definition sub (a b : Node) : Node := x <- a ;; y <- b ;; ret (x - y).
Definition multiply (a b : Node) : Node := x <- a ;; y <- b ;; ret (x * y).
Definition max (a b : Node) : Node := x <- a ;; y <- b ;; ret (Qmax x y).
Definition min (a b : Node) : Node := x <- a ;; y <- b ;; ret (Qmin x y).
Definition round (a : Node) : Node := x <- a ;; ret (inject_Z (Math_round x)).

(** [divide(a, b)].  The event records the operands: the quotient of the
    model has no meaning when [b] is zero (JavaScript gives NaN or an
    infinity there), and the theorems rule that case out. *)
Definition divide (a b : Node) : Node :=
  x <- a ;; y <- b ;; fun this => (x / y, this, [EvDivide x y]).

Definition eq (a b : Node) : Node :=
  x <- a ;; y <- b ;; ret (ofbool (Qeq_bool x y)).
Definition greaterThan (a b : Node) : Node :=
  x <- a ;; y <- b ;; ret (ofbool (Qgtb x y)).

(** [or] stops at the first truthy operand. *)
Definition or (a b : Node) : Node :=
  x <- a ;; if truthy x then ret 1 else (y <- b ;; ret (ofbool (truthy y))).

Definition clockRunning : Node :=
  fun this => (ofbool (running (_clock this)), this, []).
Definition startClock : Node := fun this => (0, setRunning true this, []).
Definition stopClock : Node := fun this => (0, setRunning false this, []).

(** [onChange(value, action)]: the node keeps the value it saw last; the
    first evaluation only records it, a later one runs [action] when the
    value differs from the recorded one. *)
Definition onChange (v action : Node) : Node :=
  (fun this =>
     match prevValue this with
     | None => (x <- v ;; fun this' => (x, setPrevValue x this', [])) this
     | Some _ => (0, this, [])
     end) ;;
  x <- v ;;
  fun this =>
    match prevValue this with
    | Some p =>
        if Qeq_bool x p then (0, this, [])
        else ((fun this' => (x, setPrevValue x this', [])) ;; action) this
    | None => (0, this, [])
    end.

(** [call(args, callback)]: evaluates the arguments and hands them to a
    JavaScript callback, which sees the instance ([this.props]). *)
Fixpoint evalAll (args : list Node) : M (list Q) :=
  match args with
  | [] => ret []
  | a :: args' => x <- a ;; xs <- evalAll args' ;; ret (x :: xs)
  end.

Definition call (args : list Node) (callback : list Q -> Pager -> list Event) : Node :=
  xs <- evalAll args ;; fun this => (0, this, callback xs this).

(** [interpolate(n, {inputRange: [i0, i1], outputRange: [o0, o1],
    extrapolate: Extrapolate.CLAMP})] on one segment: the ends of the
    output range outside the input range, the line through them inside. *)
Definition interpolate_clamp (n : Node) (inputRange outputRange : Q * Q) : Node :=
  x <- n ;;
  let '(i0, i1) := inputRange in
  let '(o0, o1) := outputRange in
  ret (if Qgtb i0 x then o0
       else if Qgtb x i1 then o1
       else o0 + (x - i0) / (i1 - i0) * (o1 - o0)).

(** [spring(clock, state, config)] advances the spring by one frame.  The
    integration itself belongs to the animation library: it is a
    parameter, which reads the clock, the target and the four values of
    [state] and gives their new contents. *)
Record SpringParams := {
  damping : Q;
  mass : Q;
  stiffness : Q;
  overshootClamping : bool;
  restSpeedThreshold : Q;
  restDisplacementThreshold : Q
}.

Record Motion := {
  at_position : Q;
  at_velocity : Q;
  at_time : Q;
  is_finished : Q
}.

Definition Integrator : Type := SpringParams -> Q -> Q -> Motion -> Motion.

Record SpringState := { position : Cell; velocity : Cell; time : Cell; finished : Cell }.

Record SpringConfig := { params : SpringParams; toValue : Cell }.

Definition spring (integrate : Integrator) (state : SpringState) (config : SpringConfig) : Node :=
  fun this =>
    let v := values this in
    let m := integrate (params config) (now (_clock this)) (v (toValue config))
               {| at_position := v (position state);
                  at_velocity := v (velocity state);
                  at_time := v (time state);
                  is_finished := v (finished state) |} in
    (0,
     setValue (finished state) (is_finished m)
       (setValue (time state) (at_time m)
          (setValue (velocity state) (at_velocity m)
             (setValue (position state) (at_position m) this))),
     []).

End Animated.

(** ** Pager.js *)

Definition SPRING_CONFIG : Animated.SpringParams :=
  {| Animated.damping := 35;
     Animated.mass := 2;
     Animated.stiffness := 100;
     Animated.overshootClamping := true;
     Animated.restSpeedThreshold := 0.001;
     Animated.restDisplacementThreshold := 0.001 |}.

Module Pager.
Section WithSpring.

Import Animated.

(** The spring integration of the animation library. *)
Variable integrate : Integrator.

(** The field initialisers of the class, run once for the first props. *)
Definition construct (p : Props) : Pager :=
  {| props := p;
     values := fun c =>
       match c with
       | _velocityX => 0
       | _gestureX => 0
       | _gestureState => -1
       | _offsetX => 0
       | _position => - index (navigationState p) * width (layout p)
       | _index => index (navigationState p)
       | _nextIndex => index (navigationState p)
       | _isSwiping => FALSE
       | _isSwipeGesture => FALSE
       | _routesLength => inject_Z (Z.of_nat (List.length (routes (navigationState p))))
       | _layoutWidth => js_or (width (layout p)) 320
       | state_time => 0
       | state_finished => 0
       | config_toValue => 0
       end;
     prevValue := None;
     _clock := {| running := false; now := 0 |} |}.

Definition componentDidUpdate (prevProps : Props) (this : Pager) : Pager :=
  let this1 :=
    if negb (Qeq_bool (index (navigationState (props this)))
                      (index (navigationState prevProps)))
    then setValue _nextIndex (index (navigationState (props this)))
           (setValue _isSwipeGesture FALSE this)
    else this in
  let this2 :=
    if negb (Nat.eqb (List.length (routes (navigationState prevProps)))
                     (List.length (routes (navigationState (props this)))))
    then setValue _routesLength
           (inject_Z (Z.of_nat (List.length (routes (navigationState (props this))))))
           this1
    else this1 in
  if negb (Qeq_bool (width (layout prevProps)) (width (layout (props this))))
  then setValue _layoutWidth (width (layout (props this))) this2
  else this2.

Definition _swipeDistanceThreshold : Node := divide (value _layoutWidth) (num 1.75).
Definition _swipeVelocityThreshold : Q := 1200.

(** The callback handed to [call] in [transitionTo]. *)
Definition commit (args : list Q) (this : Pager) : list Event :=
  match args with
  | [v] =>
      match array_get (routes (navigationState (props this))) (Math_round v) with
      | Some route => [EvJumpTo (key route)]
      | None => [EvTypeError]
      end
  | _ => []
  end.

Definition transitionTo (index : Node) : Node :=
  let state :=
    {| position := _position; velocity := _velocityX;
       time := state_time; finished := state_finished |} in
  let config := {| params := SPRING_CONFIG; toValue := config_toValue |} in
  block [
    cond clockRunning (num NOOP) (block [
      set (toValue config) (multiply (multiply index (value _layoutWidth)) (num (-1)));
      set (finished state) (num 0);
      set (time state) (num 0);
      set _index index;
      startClock
    ]);
    spring integrate state config;
    cond (value (finished state)) (block [
      stopClock;
      set _gestureX (num 0);
      set _velocityX (num 0);
      call [value _index] commit
    ]) (num 0)
  ].

(** [event([{nativeEvent: {translationX, velocityX, state}}])] *)
Definition handleGestureEvent (translationX velocityX state : Q) (this : Pager) : Pager :=
  setValue _gestureState state
    (setValue _velocityX velocityX
       (setValue _gestureX translationX this)).

(** The two sub-expressions of [translateX] that compute the next
    index are given names here; in Pager.js they are written in place,
    as the argument of [this.transitionTo(...)].  A node that occurs
    twice is evaluated at each occurrence (the library keeps the value
    of a node for the rest of an evaluation pass; nothing that these
    nodes read is written between their occurrences, so only the number
    of [EvDivide] events could differ). *)

(** "determine direction" *)
Definition swipeDirection : Node :=
  cond
    (greaterThan (abs (value _gestureX)) _swipeDistanceThreshold)
    (divide (value _gestureX) (abs (value _gestureX)))
    (divide (value _velocityX) (abs (value _velocityX))).

(** "Calculate the next index" *)
Definition releaseIndex : Node :=
  cond
    (or
       (greaterThan (abs (value _gestureX)) _swipeDistanceThreshold)
       (greaterThan (abs (value _velocityX)) (num _swipeVelocityThreshold)))
    (round
       (min
          (max (num 0) (sub (value _index) swipeDirection))
          (sub (value _routesLength) (num 1))))
    (value _index).

(** The three parts of [translateX], written in place in Pager.js:
    the reaction to an index that changed from outside, the arm of the
    [cond] taken while the gesture is active, and its other arm. *)

(** "Index changed from outside" *)
Definition onIndexChange : Node :=
  onChange
    (value _nextIndex)
    (cond (or (eq (value _index) (value _nextIndex)) (value _isSwipeGesture))
       (num NOOP)
       (block [
          stopClock;
          set _index (value _nextIndex)
        ])).

Definition whileActive : Node :=
  block [
    cond (value _isSwiping) (num NOOP) (block [
      set _isSwiping (num TRUE);
      set _isSwipeGesture (num TRUE);
      set _offsetX (value _position)
    ]);
    set _position (add (value _offsetX) (value _gestureX));
    stopClock
  ].

Definition whenReleased : Node :=
  block [
    set _isSwiping (num FALSE);
    transitionTo releaseIndex
  ].

Definition translateX : Node :=
  block [
    onIndexChange;
    cond (eq (value _gestureState) (num State.ACTIVE)) whileActive whenReleased;
    value _position
  ].

(** [render]: the translation handed to the view. *)
Definition maxTranslate (p : Props) : Q :=
  width (layout p) * (inject_Z (Z.of_nat (List.length (routes (navigationState p)))) - 1).

Definition render_translateX : Node :=
  fun this =>
    let m := maxTranslate (props this) in
    interpolate_clamp translateX (- m, 0) (- m, 0) this.

(** ** What the host does to a mounted pager *)

(** New props arrive. *)
Definition receiveProps (p : Props) (this : Pager) : Pager :=
  componentDidUpdate (props this) (setProps p this).

(** One evaluation of the graph, at clock time [t]. *)
Definition frame (t : Q) (this : Pager) : Q * Pager * list Event :=
  render_translateX (setNow t this).

End WithSpring.
End Pager.

(** ** The host: gesture samples, new props and frames *)

Inductive HostStep :=
  | Gesture (translationX velocityX state : Q)
  | NewProps (p : Props)
  | Frame (t : Q).

Definition step (integrate : Animated.Integrator) (s : HostStep) (this : Pager)
  : Pager * list Event :=
  match s with
  | Gesture x v st => (Pager.handleGestureEvent x v st this, [])
  | NewProps p => (Pager.receiveProps p this, [])
  | Frame t => let r := Pager.frame integrate t this in (after r, events r)
  end.

Fixpoint run (integrate : Animated.Integrator) (l : list HostStep) (this : Pager)
  : Pager * list Event :=
  match l with
  | [] => (this, [])
  | s :: l' =>
      let '(this1, ev1) := step integrate s this in
      let '(this2, ev2) := run integrate l' this1 in
      (this2, ev1 ++ ev2)
  end.

(** ** Vocabulary of the specification *)

(** swipeDistanceThreshold = LayoutWidth / 1.75, and the velocity threshold *)
Definition swipeDistanceThreshold (this : Pager) : Q := values this _layoutWidth / 1.75.
Definition swipeVelocityThreshold : Q := 1200.

(** The release qualifies as a swipe: the guard of [Pager.releaseIndex]. *)
Definition swipes (this : Pager) : bool :=
  Qgtb (Qabs (values this _gestureX)) (swipeDistanceThreshold this)
  || Qgtb (Qabs (values this _velocityX)) swipeVelocityThreshold.

(** sign(x): -1, 0 or 1 *)
Definition Qsign (x : Q) : Q := inject_Z (Z.sgn (Qnum x)).

(** an integer clamped into [[lo, hi]] *)
Definition clamp (lo hi z : Z) : Z := Z.min (Z.max lo z) hi.

(** The finger is not on the screen in this frame. *)
Definition released (this : Pager) : Prop :=
  ~ values this _gestureState == State.ACTIVE.

(** The graph has seen the current [_nextIndex]: no change of the outside
    index is waiting to be noticed by [onChange]. *)
Definition noPendingIndex (this : Pager) : Prop :=
  match prevValue this with
  | Some p => values this _nextIndex == p
  | None => True
  end.

(** How often the commit callback called [jumpTo], and how often it ran. *)
Definition isJumpTo (e : Event) : bool :=
  match e with EvJumpTo _ => true | _ => false end.
Definition isCommit (e : Event) : bool :=
  match e with EvJumpTo _ | EvTypeError => true | EvDivide _ _ => false end.
Definition jumpToCount (l : list Event) : nat := List.length (filter isJumpTo l).
Definition commitCount (l : list Event) : nat := List.length (filter isCommit l).

(** An event that the specification allows: no failed route lookup. *)
Definition noTypeError (e : Event) : Prop := e <> EvTypeError.

(** A division whose denominator is not zero. *)
Definition divisionDefined (e : Event) : Prop :=
  match e with
  | EvDivide _ d => ~ d == 0
  | _ => True
  end.

(** Props for a page set of [n] routes: the index addresses a route and
    the width is a width. *)
Definition propsFor (n : nat) (p : Props) : Prop :=
  List.length (routes (navigationState p)) = n /\
  0 <= index (navigationState p) <= inject_Z (Z.of_nat n) - 1 /\
  0 <= width (layout p).

(** The pagers that a host can produce for a page set of [n] routes. *)
Inductive reachable (integrate : Animated.Integrator) (n : nat) : Pager -> Prop :=
  | reach_construct p :
      propsFor n p -> reachable integrate n (Pager.construct p)
  | reach_gesture x v st this :
      reachable integrate n this ->
      reachable integrate n (Pager.handleGestureEvent x v st this)
  | reach_props p this :
      propsFor n p ->
      reachable integrate n this ->
      reachable integrate n (Pager.receiveProps p this)
  | reach_frame t this :
      reachable integrate n this ->
      reachable integrate n (after (Pager.frame integrate t this)).

(** What holds of every reachable pager. *)
Definition inRange (n : nat) (this : Pager) : Prop :=
  List.length (routes (navigationState (props this))) = n /\
  values this _routesLength == inject_Z (Z.of_nat n) /\
  0 <= values this _index <= inject_Z (Z.of_nat n) - 1 /\
  0 <= values this _nextIndex <= inject_Z (Z.of_nat n) - 1 /\
  0 <= values this _layoutWidth.

(** The cells that the graph writes with values of no consequence for the
    invariants of this file: all but those that only the host writes
    ([_nextIndex], [_routesLength], [_layoutWidth], [_gestureState]) and
    [_index]. *)
Definition unprotected (c : Cell) : bool :=
  match c with
  | _index | _nextIndex | _routesLength | _layoutWidth | _gestureState => false
  | _ => true
  end.

(** [keeps I E m]: from an instance that satisfies [I], the computation
    [m] ends in one that satisfies [I] and emits only events in [E]. *)
Definition keeps {A : Type} (I : Pager -> Prop) (E : Event -> Prop) (m : M A) : Prop :=
  forall this, I this -> I (after (m this)) /\ Forall E (events (m this)).

(** ** The steps of a transition, as functions on the instance

    [Pager.transitionTo] is characterised below ([transitionTo_run]) by
    these functions: the first item of its block, the spring, and what
    happens when the spring reports that it has finished. *)

(** "Animation wasn't running before: set the initial values and start
    the clock", for the target index [i]. *)
Definition started (i : Q) (this : Pager) : Pager :=
  setRunning true
    (setValue _index i
       (setValue state_time 0
          (setValue state_finished 0
             (setValue config_toValue (i * values this _layoutWidth * -1) this)))).

(** What the integrator answers for the current contents of the cells. *)
Definition springStep (integrate : Animated.Integrator) (this : Pager) : Animated.Motion :=
  integrate SPRING_CONFIG (now (_clock this)) (values this config_toValue)
    {| Animated.at_position := values this _position;
       Animated.at_velocity := values this _velocityX;
       Animated.at_time := values this state_time;
       Animated.is_finished := values this state_finished |}.

(** "Animate the values with a spring" *)
Definition sprung (integrate : Animated.Integrator) (this : Pager) : Pager :=
  let m := springStep integrate this in
  setValue state_finished (Animated.is_finished m)
    (setValue state_time (Animated.at_time m)
       (setValue _velocityX (Animated.at_velocity m)
          (setValue _position (Animated.at_position m) this))).

(** "When spring animation finishes, stop the clock; reset gesture and
    velocity from previous gesture" *)
Definition atRest (this : Pager) : Pager :=
  setValue _velocityX 0 (setValue _gestureX 0 (setRunning false this)).

(** The pager when the finger goes down: "We weren't dragging before". *)
Definition grabbed (this : Pager) : Pager :=
  if truthy (values this _isSwiping) then this
  else setValue _offsetX (values this _position)
         (setValue _isSwipeGesture TRUE (setValue _isSwiping TRUE this)).

(** The props after the host has changed the index to [i] and nothing
    else. *)
Definition withIndex (i : Q) (p : Props) : Props :=
  {| swipeEnabled := swipeEnabled p;
     navigationState := {| index := i; routes := routes (navigationState p) |};
     layout := layout p |}.

(** The answer of the integrator in the frame that starts a transition to
    the index [i]. *)
Definition firstSpringStep (integrate : Animated.Integrator) (t i : Q) (this : Pager)
  : Animated.Motion :=
  integrate SPRING_CONFIG t (i * values this _layoutWidth * -1)
    {| Animated.at_position := values this _position;
       Animated.at_velocity := values this _velocityX;
       Animated.at_time := 0;
       Animated.is_finished := 0 |}.

(** A drag: gesture samples in the active state, a frame after each. *)
Definition dragSteps (samples : list (Q * Q * Q)) : list HostStep :=
  flat_map (fun '(x, v, t) => [Gesture x v State.ACTIVE; Frame t]) samples.

(** The frames at the clock times [ts] bring the transition to its end:
    the clock is still running after each of them but the last. *)
Fixpoint settlesAfter (integrate : Animated.Integrator) (ts : list Q) (this : Pager)
  : Prop :=
  match ts with
  | [] => False
  | t :: ts' =>
      match ts' with
      | [] => running (_clock (after (Pager.frame integrate t this))) = false
      | _ :: _ =>
          running (_clock (after (Pager.frame integrate t this))) = true
          /\ settlesAfter integrate ts' (after (Pager.frame integrate t this))
      end
  end.

(** ** Sample data for concrete runs *)

(** Two integrators to run the graph with; the theorems below hold for
    every integrator.  [snap] reaches the target in one step; [glide]
    covers half of the remaining distance per frame and settles once it is
    within 50 units of the target. *)
Definition snap : Animated.Integrator :=
  fun _ t target _ =>
    {| Animated.at_position := target; Animated.at_velocity := 0;
       Animated.at_time := t; Animated.is_finished := 1 |}.

Definition glide : Animated.Integrator :=
  fun _ t target m =>
    let p := (Animated.at_position m + target) / 2 in
    if Qle_bool (Qabs (target - p)) 50
    then {| Animated.at_position := target; Animated.at_velocity := 0;
            Animated.at_time := t; Animated.is_finished := 1 |}
    else {| Animated.at_position := p;
            Animated.at_velocity := p - Animated.at_position m;
            Animated.at_time := t; Animated.is_finished := 0 |}.

Definition threeRoutes : list Route :=
  [ {| key := "first" |}; {| key := "second" |}; {| key := "third" |} ].

Definition propsAt (i w : Q) : Props :=
  {| swipeEnabled := true;
     navigationState := {| index := i; routes := threeRoutes |};
     layout := {| width := w; height := 600 |} |}.

(** A pager of three routes, 350 wide, with chosen cell contents. *)
Definition pagerWith (i gx vx : Q) : Pager :=
  Pager.handleGestureEvent gx vx State.END (Pager.construct (propsAt i 350)).

(** A pager of three routes at index 0 that is dragged 50 units to the
    right. *)
Definition draggedRight : Pager :=
  after (Pager.frame glide 16
           (Pager.handleGestureEvent 50 0 State.ACTIVE
              (Pager.construct (propsAt 0 350)))).

(** A host that mounts a pager of three routes and then supplies the
    index 5. *)
Definition hostWithIndexFive : list HostStep :=
  [Frame 0; NewProps (propsAt 5 350); Frame 16].

(** A pager of three routes at index 0 after its first frame (which ends
    at rest at once, under either sample integrator). *)
Definition mounted : Pager :=
  after (Pager.frame glide 0 (Pager.construct (propsAt 0 350))).

(** The same pager in the middle of a drag of 100 units to the left. *)
Definition dragging : Pager :=
  after (Pager.frame glide 16 (Pager.handleGestureEvent (-100) 0 State.ACTIVE mounted)).

(** The same pager after a swipe to the second route has settled. *)
Definition swipedToSecond : Pager :=
  fst (run snap [Gesture (-201) 0 State.ACTIVE; Frame 16;
                 Gesture (-201) 0 State.END; Frame 32] mounted).

(** A host that drags, changes the index to 2 during the drag, and lets
    go after 201 units. *)
Definition hostInterferes : list HostStep :=
  [Gesture (-100) 0 State.ACTIVE; Frame 16;
   NewProps (propsAt 2 350); Frame 32;
   Gesture (-201) 0 State.ACTIVE; Frame 48;
   Gesture (-201) 0 State.END; Frame 64].

(** A host that swipes to the second route and, once [jumpTo] has been
    called, supplies the index 1. *)
Definition hostFollowsCommit : list HostStep :=
  [Gesture (-201) 0 State.ACTIVE; Frame 16;
   Gesture (-201) 0 State.END; Frame 32;
   NewProps (propsAt 1 350); Frame 48].

(** ** Pager.js: what [render] gives to its children and to the view *)

Module PagerView.

(** [position: divide(abs(translateX), layout.width)], where [translateX]
    is the clamped translation of [render]. *)
Definition position (integrate : Animated.Integrator) : Node :=
  fun this =>
    Animated.divide
      (Animated.abs (Pager.render_translateX integrate))
      (Animated.num (width (layout (props this)))) this.

(** [enabled={layout.width !== 0 && swipeEnabled}] of the gesture handler *)
Definition enabled (this : Pager) : bool :=
  negb (Qeq_bool (width (layout (props this))) 0) && swipeEnabled (props this).

(** The width of the view that holds the pages, when [layout.width] is
    truthy; otherwise the style is [null] and no translation is applied. *)
Definition containerWidth (this : Pager) : option Q :=
  if truthy (width (layout (props this)))
  then Some (width (layout (props this))
             * inject_Z (Z.of_nat (List.length (routes (navigationState (props this))))))
  else None.

End PagerView.

(** ** TabBar.js

    The tab bar is modelled with what its methods read and write: the
    props, the instance fields, the callbacks waiting for the next
    animation frame, and the [scrollTo] calls made on the scroll view. *)

(** [s.endsWith(suffix)] *)
Definition endsWith (s suffix : string) : bool :=
  (String.length suffix <=? String.length s)%nat
  && String.eqb
       (substring (String.length s - String.length suffix) (String.length suffix) s)
       suffix.

Module TabBar.

(** [typeof flattened.width]: undefined, a number or a string. *)
Inductive StyleWidth :=
  | WidthUndefined
  | WidthNumber (w : Q)
  | WidthString (s : string).

Record ViewStyle := { style_width : StyleWidth }.

(** The props that the methods below read.  [tabStyle] is the style after
    [StyleSheet.flatten]: [None] when there is none. *)
Record Props := {
  layout : Layout;
  navigationState : NavigationState;
  scrollEnabled : bool;
  tabStyle : option ViewStyle
}.

(** A callback handed to [requestAnimationFrame]: the one of
    [_resetScroll], with the [value] and [animated] it closes over, or the
    one of [_handleEndDrag]. *)
Inductive Callback :=
  | ResetScrollCallback (value : Q) (animated : bool)
  | EndDragCallback.

(** [this._scrollView.scrollTo({ x, animated })] *)
Inductive ScrollCall := ScrollTo (x : Q) (animated : bool).

Record Instance := {
  props : Props;
  initialOffset : option (Q * Q);
  _scrollView : bool;                    (* the ref is attached *)
  _isIntial : bool;
  _isManualScroll : bool;
  _isMomentumScroll : bool;
  _scrollResetCallback : option nat;     (* an animation frame id, or undefined *)
  frameCallbacks : list (nat * Callback);  (* waiting for the next frame *)
  nextFrameId : nat
}.

Definition numberOfRoutes (p : Props) : Q :=
  inject_Z (Z.of_nat (List.length (routes (navigationState p)))).

Section WithParser.

(** [parseFloat] followed by [Number.isFinite]: the number that a string
    starts with, [None] when there is none or it is not finite. *)
Variable parseFloat : string -> option Q.

Definition _getTabWidth (p : Props) : Q :=
  let otherwise :=
    if scrollEnabled p then (width (layout p) / 5) * 2
    else width (layout p) / numberOfRoutes p in
  match tabStyle p with
  | Some flattened =>
      match style_width flattened with
      | WidthNumber w => w
      | WidthString s =>
          if endsWith s "%" then
            match parseFloat s with
            | Some w => width (layout p) * (w / 100)
            | None => otherwise
            end
          else otherwise
      | WidthUndefined => otherwise
      end
  | None => otherwise
  end.

Definition _normalizeScrollValue (p : Props) (value : Q) : Q :=
  let tabWidth := _getTabWidth p in
  let tabBarWidth := Qmax (tabWidth * numberOfRoutes p) (width (layout p)) in
  let maxDistance := tabBarWidth - width (layout p) in
  Qmax (Qmin value maxDistance) 0.

Definition _getScrollAmount (p : Props) (i : Q) : Q :=
  let tabWidth := _getTabWidth p in
  let centerDistance := tabWidth * (i + 1 / 2) in
  let scrollAmount := centerDistance - width (layout p) / 2 in
  _normalizeScrollValue p scrollAmount.

Definition constructor (p : Props) : Instance :=
  {| props := p;
     initialOffset :=
       if scrollEnabled p && truthy (width (layout p))
       then Some (_getScrollAmount p (index (navigationState p)), 0)
       else None;
     _scrollView := false;
     _isIntial := true;
     _isManualScroll := false;
     _isMomentumScroll := false;
     _scrollResetCallback := None;
     frameCallbacks := [];
     nextFrameId := 0 |}.

(** The ref callback of the scroll view. *)
Definition setScrollView (attached : bool) (this : Instance) : Instance :=
  {| props := props this; initialOffset := initialOffset this;
     _scrollView := attached; _isIntial := _isIntial this;
     _isManualScroll := _isManualScroll this;
     _isMomentumScroll := _isMomentumScroll this;
     _scrollResetCallback := _scrollResetCallback this;
     frameCallbacks := frameCallbacks this; nextFrameId := nextFrameId this |}.

Definition setFlags (initial manual momentum : bool) (this : Instance) : Instance :=
  {| props := props this; initialOffset := initialOffset this;
     _scrollView := _scrollView this; _isIntial := initial;
     _isManualScroll := manual; _isMomentumScroll := momentum;
     _scrollResetCallback := _scrollResetCallback this;
     frameCallbacks := frameCallbacks this; nextFrameId := nextFrameId this |}.

Definition setFrames (id : option nat) (l : list (nat * Callback)) (next : nat)
    (this : Instance) : Instance :=
  {| props := props this; initialOffset := initialOffset this;
     _scrollView := _scrollView this; _isIntial := _isIntial this;
     _isManualScroll := _isManualScroll this;
     _isMomentumScroll := _isMomentumScroll this;
     _scrollResetCallback := id;
     frameCallbacks := l; nextFrameId := next |}.

Definition setProps (p : Props) (this : Instance) : Instance :=
  {| props := p; initialOffset := initialOffset this;
     _scrollView := _scrollView this; _isIntial := _isIntial this;
     _isManualScroll := _isManualScroll this;
     _isMomentumScroll := _isMomentumScroll this;
     _scrollResetCallback := _scrollResetCallback this;
     frameCallbacks := frameCallbacks this; nextFrameId := nextFrameId this |}.

(** [cancelAnimationFrame(id)]: nothing happens for [undefined] or for an
    id that is not waiting. *)
Definition cancelAnimationFrame (id : option nat) (this : Instance) : Instance :=
  match id with
  | None => this
  | Some i =>
      setFrames (_scrollResetCallback this)
        (filter (fun e => negb (Nat.eqb (fst e) i)) (frameCallbacks this))
        (nextFrameId this) this
  end.

(** [requestAnimationFrame(callback)]: the callback waits for the next
    frame under a fresh id. *)
Definition requestAnimationFrame (callback : Callback) (this : Instance)
  : nat * Instance :=
  (nextFrameId this,
   setFrames (_scrollResetCallback this)
     (frameCallbacks this ++ [(nextFrameId this, callback)])
     (S (nextFrameId this)) this).

Definition _adjustScroll (value : Q) (this : Instance) : Instance * list ScrollCall :=
  if scrollEnabled (props this) then
    let this1 := cancelAnimationFrame (_scrollResetCallback this) this in
    let calls :=
      if _scrollView this1
      then [ScrollTo
              (_normalizeScrollValue (props this1)
                 (_getScrollAmount (props this1) value))
              (negb (_isIntial this1))]
      else [] in
    (setFlags false (_isManualScroll this1) (_isMomentumScroll this1) this1, calls)
  else (this, []).

Definition _resetScroll (value : Q) (animated : bool) (this : Instance) : Instance :=
  if scrollEnabled (props this) then
    let this1 := cancelAnimationFrame (_scrollResetCallback this) this in
    let '(id, this2) :=
      requestAnimationFrame (ResetScrollCallback value animated) this1 in
    setFrames (Some id) (frameCallbacks this2) (nextFrameId this2) this2
  else this.

Definition componentDidUpdate (prevProps : Props) (this : Instance) : Instance :=
  if negb (Nat.eqb (List.length (routes (navigationState prevProps)))
                   (List.length (routes (navigationState (props this)))))
     || negb (Qeq_bool (width (layout prevProps)) (width (layout (props this))))
  then _resetScroll (index (navigationState (props this))) false this
  else if negb (Qeq_bool (index (navigationState prevProps))
                         (index (navigationState (props this))))
  then _resetScroll (index (navigationState (props this))) true this
  else this.

Definition _handleBeginDrag (this : Instance) : Instance :=
  setFlags (_isIntial this) true false this.

Definition _handleEndDrag (this : Instance) : Instance :=
  snd (requestAnimationFrame EndDragCallback this).

Definition _handleMomentumScrollBegin (this : Instance) : Instance :=
  setFlags (_isIntial this) (_isManualScroll this) true this.

Definition _handleMomentumScrollEnd (this : Instance) : Instance :=
  setFlags (_isIntial this) false false this.

(** What a callback does when its frame comes. *)
Definition runCallback (callback : Callback) (this : Instance)
  : Instance * list ScrollCall :=
  match callback with
  | ResetScrollCallback value animated =>
      (this,
       if _scrollView this
       then [ScrollTo (_getScrollAmount (props this) value) animated]
       else [])
  | EndDragCallback =>
      if _isMomentumScroll this then (this, [])
      else (setFlags (_isIntial this) false (_isMomentumScroll this) this, [])
  end.

Fixpoint runCallbacks (l : list (nat * Callback)) (this : Instance)
  : Instance * list ScrollCall :=
  match l with
  | [] => (this, [])
  | (_, callback) :: l' =>
      let '(this1, calls1) := runCallback callback this in
      let '(this2, calls2) := runCallbacks l' this1 in
      (this2, calls1 ++ calls2)
  end.

(** The host runs an animation frame: the callbacks that were waiting run
    in the order of their requests. *)
Definition animationFrame (this : Instance) : Instance * list ScrollCall :=
  runCallbacks (frameCallbacks this)
    (setFrames (_scrollResetCallback this) [] (nextFrameId this) this).

(** New props arrive. *)
Definition receiveProps (p : Props) (this : Instance) : Instance :=
  componentDidUpdate (props this) (setProps p this).

End WithParser.

(** The translation of the default indicator in [_renderIndicator], for the
    [position] node, the tab [width] and the routes of its props. *)
Definition indicatorTranslateX (isRTL : bool) (position : Node) (width : Q)
    (routes : list Route) : Node :=
  Animated.multiply
    (Animated.multiply
       (Animated.interpolate_clamp position
          (0, inject_Z (Z.of_nat (List.length routes)) - 1)
          (0, inject_Z (Z.of_nat (List.length routes)) - 1))
       (Animated.num width))
    (Animated.num (if isRTL then -1 else 1)).

End TabBar.

(** The largest scroll offset of the tab bar: [maxDistance] in
    [_normalizeScrollValue]. *)
Definition maxDistance (parseFloat : string -> option Q) (p : TabBar.Props) : Q :=
  Qmax (TabBar._getTabWidth parseFloat p * TabBar.numberOfRoutes p)
       (width (TabBar.layout p))
  - width (TabBar.layout p).

(** A parser for the sample runs: it knows the string "50%". *)
Definition sampleParseFloat (s : string) : option Q :=
  if String.eqb s "50%" then Some 50 else None.

(** Props of a tab bar over the three sample routes. *)
Definition tabBarProps (i w : Q) (scroll : bool) (style : option TabBar.ViewStyle)
  : TabBar.Props :=
  {| TabBar.layout := {| width := w; height := 48 |};
     TabBar.navigationState := {| index := i; routes := threeRoutes |};
     TabBar.scrollEnabled := scroll;
     TabBar.tabStyle := style |}.

(** * Proofs *)

(** ** Numbers *)

Lemma Qgtb_true (a b : Q) : Qgtb a b = true <-> b < a.
Proof.
  unfold Qgtb. rewrite negb_true_iff. split; intro H.
  - apply Qnot_le_lt. intro L. apply Qle_bool_iff in L. congruence.
  - destruct (Qle_bool a b) eqn:L; [|reflexivity].
    apply Qle_bool_iff in L. lra.
Qed.

Lemma Qgtb_false (a b : Q) : Qgtb a b = false <-> a <= b.
Proof.
  unfold Qgtb. rewrite negb_false_iff. apply Qle_bool_iff.
Qed.

Lemma truthy_ofbool (b : bool) : truthy (ofbool b) = b.
Proof. destruct b; reflexivity. Qed.

Lemma truthy_false (x : Q) : truthy x = false <-> x == 0.
Proof.
  unfold truthy. rewrite negb_false_iff. apply Qeq_bool_iff.
Qed.

Lemma Qeq_bool_false (a b : Q) : Qeq_bool a b = false <-> ~ a == b.
Proof.
  rewrite <- Qeq_bool_iff. destruct (Qeq_bool a b); split; congruence.
Qed.

Lemma Math_round_le (x y : Q) : x <= y -> (Math_round x <= Math_round y)%Z.
Proof.
  intro H. unfold Math_round. apply Qfloor_resp_le. lra.
Qed.

Lemma Math_round_comp (x y : Q) : x == y -> Math_round x = Math_round y.
Proof.
  intro H. unfold Math_round. apply Qfloor_comp. rewrite H. reflexivity.
Qed.

Lemma Math_round_Z (z : Z) : Math_round (inject_Z z) = z.
Proof.
  unfold Math_round.
  assert (L : (z <= Qfloor (inject_Z z + (1 # 2)))%Z).
  { rewrite <- (Qfloor_Z z) at 1. apply Qfloor_resp_le. lra. }
  assert (U : (Qfloor (inject_Z z + (1 # 2)) < z + 1)%Z).
  { pose proof (Qfloor_le (inject_Z z + (1 # 2))) as F.
    rewrite Zlt_Qlt, inject_Z_plus. change (inject_Z 1) with 1. lra. }
  lia.
Qed.

(** Rounding after clamping is clamping after rounding: the bounds are
    integers and rounding is monotone. *)
Lemma round_clamp (x : Q) (m : Z) :
  Math_round (Qmin (Qmax 0 x) (inject_Z m)) = clamp 0 m (Math_round x).
Proof.
  unfold clamp.
  assert (R0 : Math_round 0 = 0%Z) by reflexivity.
  pose proof (Math_round_Z m) as Rm.
  destruct (Q.max_spec 0 x) as [[Hx Ex]|[Hx Ex]];
    destruct (Q.min_spec (Qmax 0 x) (inject_Z m)) as [[Hm Em]|[Hm Em]];
    rewrite (Math_round_comp _ _ Em);
    rewrite Ex in Hm;
    try rewrite (Math_round_comp _ _ Ex).
  - assert (0 <= Math_round x)%Z by (rewrite <- R0; apply Math_round_le; lra).
    assert (Math_round x <= m)%Z by (rewrite <- Rm; apply Math_round_le; lra).
    lia.
  - assert (m <= Math_round x)%Z by (rewrite <- Rm at 1; apply Math_round_le; lra).
    rewrite Rm. lia.
  - assert (Math_round x <= 0)%Z by (rewrite <- R0; apply Math_round_le; lra).
    assert (0 <= m)%Z by (rewrite <- R0, <- Rm; apply Math_round_le; lra).
    rewrite R0. lia.
  - assert (Math_round x <= 0)%Z by (rewrite <- R0; apply Math_round_le; lra).
    assert (m <= 0)%Z by (rewrite <- R0, <- Rm; apply Math_round_le; lra).
    rewrite Rm. lia.
Qed.

Lemma Qdiv_abs_sign (x : Q) : ~ x == 0 -> x / Qabs x == Qsign x.
Proof.
  intro H. unfold Qsign.
  destruct (Qlt_le_dec x 0) as [N|P].
  - rewrite (Qabs_neg x) by lra.
    assert (S : Z.sgn (Qnum x) = (-1)%Z).
    { apply Z.sgn_neg. unfold Qlt in N. simpl in N. lia. }
    rewrite S. field. lra.
  - rewrite (Qabs_pos x) by lra.
    assert (S : Z.sgn (Qnum x) = 1%Z).
    { apply Z.sgn_pos. assert (0 < x) as Px by (destruct (Qeq_dec x 0); [tauto|lra]).
      unfold Qlt in Px. simpl in Px. lia. }
    rewrite S. field. lra.
Qed.

(** ** The swipe decision *)

Lemma swipeDistanceThreshold_run (this : Pager) :
  Pager._swipeDistanceThreshold this
  = (swipeDistanceThreshold this, this, [EvDivide (values this _layoutWidth) 1.75]).
Proof. reflexivity. Qed.

Lemma swipeDirection_run (this : Pager) :
  Pager.swipeDirection this
  = if Qgtb (Qabs (values this _gestureX)) (swipeDistanceThreshold this)
    then (values this _gestureX / Qabs (values this _gestureX), this,
          [EvDivide (values this _layoutWidth) 1.75;
           EvDivide (values this _gestureX) (Qabs (values this _gestureX))])
    else (values this _velocityX / Qabs (values this _velocityX), this,
          [EvDivide (values this _layoutWidth) 1.75;
           EvDivide (values this _velocityX) (Qabs (values this _velocityX))]).
Proof.
  unfold Pager.swipeDirection, Animated.cond, Animated.greaterThan, Animated.abs,
    Animated.divide, Animated.value, bind, ret.
  rewrite swipeDistanceThreshold_run. cbn [fst snd app].
  rewrite truthy_ofbool.
  destruct (Qgtb _ _); reflexivity.
Qed.

Lemma swipeDirection_after (this : Pager) : after (Pager.swipeDirection this) = this.
Proof. rewrite swipeDirection_run. destruct (Qgtb _ _); reflexivity. Qed.

Lemma run_bind {A B : Type} (m : M A) (k : A -> M B) (this : Pager) :
  bind m k this
  = (result (k (result (m this)) (after (m this))),
     after (k (result (m this)) (after (m this))),
     events (m this) ++ events (k (result (m this)) (after (m this)))).
Proof.
  unfold bind, result, after, events.
  destruct (m this) as [[a t] e]. cbn [fst snd].
  destruct (k a t) as [[b t'] e']. reflexivity.
Qed.

(** Evaluation by unfolding: every [bind] becomes a [let] on a triple,
    which reduces as soon as the first computation is a triple. *)
Ltac run_nodes :=
  unfold Animated.cond, Animated.or, Animated.eq, Animated.greaterThan,
    Animated.abs, Animated.add, Animated.sub, Animated.multiply, Animated.max,
    Animated.min, Animated.round, Animated.set, Animated.num, Animated.value,
    bind, ret;
  cbv beta iota;
  cbn [app fst snd result after events].

Lemma swipeGuard_run (this : Pager) :
  Animated.or
    (Animated.greaterThan (Animated.abs (Animated.value _gestureX))
       Pager._swipeDistanceThreshold)
    (Animated.greaterThan (Animated.abs (Animated.value _velocityX))
       (Animated.num Pager._swipeVelocityThreshold)) this
  = (ofbool (swipes this), this, [EvDivide (values this _layoutWidth) 1.75]).
Proof.
  unfold swipes, swipeVelocityThreshold, Pager._swipeVelocityThreshold.
  run_nodes. rewrite swipeDistanceThreshold_run. run_nodes.
  rewrite truthy_ofbool.
  destruct (Qgtb (Qabs (values this _gestureX)) _); cbn [orb].
  - reflexivity.
  - rewrite truthy_ofbool. destruct (Qgtb _ _); reflexivity.
Qed.

Lemma releaseIndex_run (this : Pager) :
  Pager.releaseIndex this
  = if swipes this
    then (inject_Z
            (Math_round
               (Qmin (Qmax 0 (values this _index - result (Pager.swipeDirection this)))
                     (values this _routesLength - 1))),
          this,
          EvDivide (values this _layoutWidth) 1.75 :: events (Pager.swipeDirection this))
    else (values this _index, this, [EvDivide (values this _layoutWidth) 1.75]).
Proof.
  unfold Pager.releaseIndex, Animated.cond.
  unfold bind at 1. rewrite swipeGuard_run, truthy_ofbool.
  pose proof (swipeDirection_after this) as A.
  destruct (swipes this); [|reflexivity].
  run_nodes.
  destruct (Pager.swipeDirection this) as [[d this'] ev].
  cbn [after fst snd] in A. subst this'.
  run_nodes. rewrite !app_nil_r. reflexivity.
Qed.

Lemma releaseIndex_after (this : Pager) : after (Pager.releaseIndex this) = this.
Proof. rewrite releaseIndex_run. destruct (swipes this); reflexivity. Qed.

(** ** Invariants of the graph

    Any property [I] of the instance that does not depend on the
    unprotected cells, on the clock or on the private value of [onChange]
    is kept by one evaluation of the graph, provided the two assignments
    to [_index] keep it; the events of the evaluation are those of the
    next-index expression and of the commit callback. *)

Section Keeps.

Variable integrate : Animated.Integrator.
Variable I : Pager -> Prop.
Variable E : Event -> Prop.

Hypothesis I_cell :
  forall c x this, unprotected c = true -> I this -> I (setValue c x this).
Hypothesis I_running : forall b this, I this -> I (setRunning b this).
Hypothesis I_prev : forall x this, I this -> I (setPrevValue x this).
Hypothesis I_now : forall t this, I this -> I (setNow t this).
Hypothesis I_next :
  forall this, I this -> I (setValue _index (values this _nextIndex) this).
Hypothesis I_release :
  forall this, I this -> I (setValue _index (result (Pager.releaseIndex this)) this).
Hypothesis E_release :
  forall this, I this -> Forall E (events (Pager.releaseIndex this)).
Hypothesis E_commit :
  forall this, I this -> Forall E (Pager.commit [values this _index] this).

Local Abbreviation keeps := (keeps I E).

Lemma keeps_ret {A} (a : A) : keeps (ret a).
Proof. intros this H. split; [exact H | constructor]. Qed.

Lemma keeps_bind {A B} (m : M A) (k : A -> M B) :
  keeps m -> (forall a, keeps (k a)) -> keeps (bind m k).
Proof.
  intros Hm Hk this H. rewrite run_bind. cbn [after events fst snd].
  destruct (Hm this H) as [H1 E1].
  destruct (Hk (result (m this)) _ H1) as [H2 E2].
  split; [exact H2 | apply Forall_app; split; assumption].
Qed.

Lemma keeps_if {A} (b : bool) (t e : M A) :
  keeps t -> keeps e -> keeps (if b then t else e).
Proof. destruct b; auto. Qed.

Lemma keeps_value c : keeps (Animated.value c).
Proof. intros this H. split; [exact H | constructor]. Qed.

Lemma keeps_num x : keeps (Animated.num x).
Proof. apply keeps_ret. Qed.

Lemma keeps_set c n :
  unprotected c = true -> keeps n -> keeps (Animated.set c n).
Proof.
  intros U Hn. apply keeps_bind; [exact Hn|].
  intros x this H. split; [apply I_cell; assumption | constructor].
Qed.

Lemma keeps_block l : Forall keeps l -> keeps (Animated.block l).
Proof.
  induction 1 as [|n l Hn Hl IH]; [apply keeps_ret|].
  destruct l as [|n' l']; [exact Hn|].
  change (keeps (bind n (fun _ => Animated.block (n' :: l')))).
  apply keeps_bind; auto.
Qed.

Lemma keeps_cond c t e :
  keeps c -> keeps t -> keeps e -> keeps (Animated.cond c t e).
Proof.
  intros. apply keeps_bind; [assumption|]. intro. apply keeps_if; assumption.
Qed.

Lemma keeps_or a b : keeps a -> keeps b -> keeps (Animated.or a b).
Proof.
  intros Ha Hb. apply keeps_bind; [exact Ha|]. intro x.
  apply keeps_if; [apply keeps_ret|].
  apply keeps_bind; [exact Hb|]. intro. apply keeps_ret.
Qed.

Lemma keeps_binary (f : Q -> Q -> Q) a b :
  keeps a -> keeps b -> keeps (x <- a ;; y <- b ;; ret (f x y)).
Proof.
  intros Ha Hb. apply keeps_bind; [exact Ha|]. intro.
  apply keeps_bind; [exact Hb|]. intro. apply keeps_ret.
Qed.

Lemma keeps_clockRunning : keeps Animated.clockRunning.
Proof. intros this H. split; [exact H | constructor]. Qed.

Lemma keeps_startClock : keeps Animated.startClock.
Proof. intros this H. split; [apply I_running; exact H | constructor]. Qed.

Lemma keeps_stopClock : keeps Animated.stopClock.
Proof. intros this H. split; [apply I_running; exact H | constructor]. Qed.

Lemma keeps_onChange v action :
  keeps v -> keeps action -> keeps (Animated.onChange v action).
Proof.
  intros Hv Ha. unfold Animated.onChange.
  apply keeps_bind.
  - intros this H. destruct (prevValue this).
    + split; [exact H | constructor].
    + revert this H. apply keeps_bind; [exact Hv|].
      intros x this H. split; [apply I_prev; exact H | constructor].
  - intros _. apply keeps_bind; [exact Hv|].
    intros x this H. destruct (prevValue this) as [p|].
    + destruct (Qeq_bool x p).
      * split; [exact H | constructor].
      * revert this H. apply keeps_bind; [|intro; exact Ha].
        intros this H. split; [apply I_prev; exact H | constructor].
    + split; [exact H | constructor].
Qed.

Lemma keeps_spring state config :
  unprotected (Animated.position state) = true ->
  unprotected (Animated.velocity state) = true ->
  unprotected (Animated.time state) = true ->
  unprotected (Animated.finished state) = true ->
  keeps (Animated.spring integrate state config).
Proof.
  intros U1 U2 U3 U4 this H. split; [|constructor].
  unfold Animated.spring, after. cbn [fst snd].
  repeat (apply I_cell; [assumption|]). exact H.
Qed.

Lemma keeps_commit : keeps (Animated.call [Animated.value _index] Pager.commit).
Proof.
  intros this H. split; [exact H|].
  apply (E_commit this H).
Qed.

Lemma keeps_releaseIndex : keeps Pager.releaseIndex.
Proof.
  intros this H. rewrite releaseIndex_after. split; [exact H | apply E_release; exact H].
Qed.

Lemma keeps_set_releaseIndex : keeps (Animated.set _index Pager.releaseIndex).
Proof.
  intros this H. unfold Animated.set. rewrite run_bind.
  cbn [after events fst snd]. rewrite releaseIndex_after, app_nil_r.
  split; [apply I_release; exact H | apply E_release; exact H].
Qed.

Lemma keeps_set_nextIndex : keeps (Animated.set _index (Animated.value _nextIndex)).
Proof.
  intros this H. split; [apply I_next; exact H | constructor].
Qed.

Ltac keeps_auto :=
  repeat first
    [ apply keeps_set_releaseIndex
    | apply keeps_set_nextIndex
    | apply keeps_commit
    | apply keeps_releaseIndex
    | apply keeps_block
    | apply Forall_cons
    | apply Forall_nil
    | apply keeps_cond
    | apply keeps_or
    | apply keeps_onChange
    | apply keeps_set; [reflexivity|]
    | apply keeps_spring; reflexivity
    | apply keeps_binary
    | apply keeps_value
    | apply keeps_num
    | apply keeps_clockRunning
    | apply keeps_startClock
    | apply keeps_stopClock ].

Lemma keeps_transitionTo : keeps (Pager.transitionTo integrate Pager.releaseIndex).
Proof.
  unfold Pager.transitionTo. cbv zeta.
  unfold Animated.multiply. keeps_auto.
Qed.

Lemma keeps_translateX : keeps (Pager.translateX integrate).
Proof.
  pose proof keeps_transitionTo.
  unfold Pager.translateX, Pager.onIndexChange, Pager.whileActive,
    Pager.whenReleased, Animated.eq, Animated.add.
  keeps_auto; assumption.
Qed.

Lemma frame_translateX t this :
  after (Pager.frame integrate t this) = after (Pager.translateX integrate (setNow t this))
  /\ events (Pager.frame integrate t this)
     = events (Pager.translateX integrate (setNow t this)).
Proof.
  unfold Pager.frame, Pager.render_translateX, Animated.interpolate_clamp.
  rewrite run_bind. cbn [after events fst snd ret]. rewrite app_nil_r. auto.
Qed.

Lemma keeps_frame t this :
  I this ->
  I (after (Pager.frame integrate t this))
  /\ Forall E (events (Pager.frame integrate t this)).
Proof.
  intro H. destruct (frame_translateX t this) as [-> ->].
  apply keeps_translateX. apply I_now. exact H.
Qed.

End Keeps.

(** ** Divisions *)

Lemma threshold_nonneg (this : Pager) :
  0 <= values this _layoutWidth -> 0 <= swipeDistanceThreshold this.
Proof.
  intro H. unfold swipeDistanceThreshold.
  assert (Eq : values this _layoutWidth / 1.75 == values this _layoutWidth * (4 # 7))
    by field.
  rewrite Eq. lra.
Qed.

Lemma swipeDirection_divisions (this : Pager) :
  0 <= values this _layoutWidth ->
  swipes this = true ->
  Forall divisionDefined (events (Pager.swipeDirection this)).
Proof.
  intros W S. pose proof (threshold_nonneg this W) as T.
  rewrite swipeDirection_run. unfold swipes in S.
  destruct (Qgtb (Qabs (values this _gestureX)) _) eqn:G; cbn [events snd].
  - apply Qgtb_true in G.
    repeat constructor; cbn; lra.
  - cbn [orb] in S. apply Qgtb_true in S. unfold swipeVelocityThreshold in S.
    repeat constructor; cbn; lra.
Qed.

Lemma releaseIndex_divisions (this : Pager) :
  0 <= values this _layoutWidth ->
  Forall divisionDefined (events (Pager.releaseIndex this)).
Proof.
  intro W. rewrite releaseIndex_run.
  destruct (swipes this) eqn:S; cbn [events snd].
  - constructor; [cbn; lra | apply swipeDirection_divisions; assumption].
  - repeat constructor. cbn. lra.
Qed.

Lemma commit_divisions (args : list Q) (this : Pager) :
  Forall divisionDefined (Pager.commit args this).
Proof.
  unfold Pager.commit. destruct args as [|v [|? ?]]; try constructor.
  destruct (array_get _ _); repeat constructor.
Qed.

Lemma frame_divisions (integrate : Animated.Integrator) (t : Q) (this : Pager) :
  0 <= values this _layoutWidth ->
  Forall divisionDefined (events (Pager.frame integrate t this)).
Proof.
  intro W.
  apply (keeps_frame integrate (fun this => 0 <= values this _layoutWidth) divisionDefined);
    try (intros; assumption).
  - intros c x this' U H. destruct c; try discriminate U; exact H.
  - intros this' H. apply releaseIndex_divisions. exact H.
  - intros this' H. apply commit_divisions.
Qed.

(** ** The range of the index *)

Lemma clamp_range (m z : Z) : (0 <= m)%Z -> (0 <= clamp 0 m z <= m)%Z.
Proof. unfold clamp. lia. Qed.

Lemma round_clamp_Q (x r : Q) (m : Z) :
  r == inject_Z m ->
  Math_round (Qmin (Qmax 0 x) r) = clamp 0 m (Math_round x).
Proof.
  intro H. rewrite <- round_clamp. apply Math_round_comp.
  destruct (Q.min_spec (Qmax 0 x) r) as [[L E1]|[L E1]];
    destruct (Q.min_spec (Qmax 0 x) (inject_Z m)) as [[L' E2]|[L' E2]];
    rewrite E1, E2; lra.
Qed.

Lemma pages_minus_one (r : Q) (n : nat) :
  r == inject_Z (Z.of_nat n) -> r - 1 == inject_Z (Z.of_nat n - 1).
Proof.
  intro H. unfold Zminus. rewrite inject_Z_plus, H. reflexivity.
Qed.

Lemma releaseIndex_range (n : nat) (this : Pager) :
  values this _routesLength == inject_Z (Z.of_nat n) ->
  0 <= values this _index <= inject_Z (Z.of_nat n) - 1 ->
  0 <= result (Pager.releaseIndex this) <= inject_Z (Z.of_nat n) - 1.
Proof.
  intros R X. rewrite releaseIndex_run.
  destruct (swipes this); cbn [result fst]; [|exact X].
  rewrite (round_clamp_Q _ _ _ (pages_minus_one _ _ R)).
  assert (N : (0 <= Z.of_nat n - 1)%Z).
  { rewrite Zle_Qle, <- (pages_minus_one _ _ (Qeq_refl _)).
    change (inject_Z 0) with 0. lra. }
  pose proof (clamp_range (Z.of_nat n - 1)
                (Math_round (values this _index - result (Pager.swipeDirection this))) N)
    as [L U].
  rewrite Zle_Qle in L, U.
  rewrite <- (pages_minus_one _ _ (Qeq_refl _)) in U.
  change (inject_Z 0) with 0 in L. lra.
Qed.

Lemma inRange_cell (n : nat) c x this :
  unprotected c = true -> inRange n this -> inRange n (setValue c x this).
Proof.
  intros U H. destruct c; try discriminate U; exact H.
Qed.

Lemma inRange_release (n : nat) (this : Pager) :
  inRange n this ->
  inRange n (setValue _index (result (Pager.releaseIndex this)) this).
Proof.
  intros (L & R & X & N & W).
  split; [exact L|]. split; [exact R|]. split; [|split; assumption].
  apply (releaseIndex_range n this R X).
Qed.

Lemma inRange_next (n : nat) (this : Pager) :
  inRange n this -> inRange n (setValue _index (values this _nextIndex) this).
Proof.
  intros (L & R & X & N & W).
  split; [exact L|]. split; [exact R|]. split; [exact N|]. split; assumption.
Qed.

Lemma array_get_Some {A : Type} (l : list A) (i : Z) :
  (0 <= i < Z.of_nat (List.length l))%Z -> exists a, array_get l i = Some a.
Proof.
  intros [L U]. unfold array_get.
  destruct (i <? 0)%Z eqn:N; [apply Z.ltb_lt in N; lia|].
  destruct (nth_error l (Z.to_nat i)) eqn:G; [eauto|].
  apply nth_error_None in G. lia.
Qed.

Lemma inRange_commit (n : nat) (this : Pager) :
  inRange n this ->
  exists route,
    Pager.commit [values this _index] this = [EvJumpTo (key route)].
Proof.
  intros (L & R & X & N & W). unfold Pager.commit.
  destruct (array_get_Some (routes (navigationState (props this)))
              (Math_round (values this _index))) as [route ->]; [|eauto].
  rewrite L.
  assert (0 <= Math_round (values this _index))%Z
    by (change 0%Z with (Math_round 0); apply Math_round_le; lra).
  assert (Math_round (values this _index) <= Z.of_nat n - 1)%Z.
  { rewrite <- (Math_round_Z (Z.of_nat n - 1)). apply Math_round_le.
    rewrite <- (pages_minus_one _ _ (Qeq_refl _)). lra. }
  lia.
Qed.

Lemma noTypeError_divide l :
  Forall (fun e => isCommit e = false) l -> Forall noTypeError l.
Proof.
  apply Forall_impl. intros [] H; cbn in H; unfold noTypeError; congruence.
Qed.

Lemma releaseIndex_no_commit (this : Pager) :
  Forall (fun e => isCommit e = false) (events (Pager.releaseIndex this)).
Proof.
  rewrite releaseIndex_run, swipeDirection_run.
  destruct (swipes this); [destruct (Qgtb _ _)|]; repeat constructor.
Qed.

Lemma inRange_frame (integrate : Animated.Integrator) (n : nat) (t : Q) (this : Pager) :
  inRange n this ->
  inRange n (after (Pager.frame integrate t this))
  /\ Forall noTypeError (events (Pager.frame integrate t this)).
Proof.
  apply (keeps_frame integrate (inRange n) noTypeError);
    try (intros; assumption).
  - apply inRange_cell.
  - apply inRange_next.
  - apply inRange_release.
  - intros this' H. apply noTypeError_divide, releaseIndex_no_commit.
  - intros this' H. destruct (inRange_commit n this' H) as [route ->].
    repeat constructor. discriminate.
Qed.

Lemma inRange_construct (n : nat) (p : Props) :
  propsFor n p -> inRange n (Pager.construct p).
Proof.
  intros (L & X & W). unfold inRange, Pager.construct.
  cbn [props values navigationState]. rewrite L.
  split; [reflexivity|]. split; [reflexivity|]. split; [exact X|]. split; [exact X|].
  unfold js_or. destruct (truthy (width (layout p))); lra.
Qed.

Lemma inRange_receiveProps (n : nat) (p : Props) (this : Pager) :
  propsFor n p -> inRange n this -> inRange n (Pager.receiveProps p this).
Proof.
  intros (L & X & W) (L' & R & I & N & W').
  unfold Pager.receiveProps, Pager.componentDidUpdate.
  cbn [props setProps]. rewrite L, L', Nat.eqb_refl. cbn [negb].
  destruct (negb (Qeq_bool (index _) (index _)));
    destruct (negb (Qeq_bool (width _) (width _)));
    (split; [exact L|]; split; [exact R|]; split; [exact I|];
     split; [first [exact N | exact X] | first [exact W | exact W']]).
Qed.

Lemma reachable_inRange (integrate : Animated.Integrator) (n : nat) (this : Pager) :
  reachable integrate n this -> inRange n this.
Proof.
  induction 1 as [p H | x v st this _ IH | p this H _ IH | t this _ IH].
  - apply inRange_construct. exact H.
  - exact IH.
  - apply inRange_receiveProps; assumption.
  - apply inRange_frame. exact IH.
Qed.

(** ** The parts of [translateX] *)

Ltac exec :=
  repeat first
    [ progress
        (unfold Animated.cond, Animated.or, Animated.eq, Animated.greaterThan,
           Animated.abs, Animated.add, Animated.sub, Animated.multiply, Animated.max,
           Animated.min, Animated.round, Animated.set, Animated.num, Animated.value,
           Animated.clockRunning, Animated.startClock, Animated.stopClock,
           Animated.call, bind, ret)
    | progress cbv beta iota zeta
    | progress
        cbn [app fst snd result after events Animated.block Animated.evalAll
             values prevValue _clock props running now
             setValue setPrevValue setRunning setNow setProps update Cell_eqb
             Animated.position Animated.velocity Animated.time Animated.finished
             Animated.toValue Animated.params]
    | rewrite truthy_ofbool ].

Lemma Qeq_bool_same (x : Q) : Qeq_bool x x = true.
Proof. apply Qeq_bool_iff. reflexivity. Qed.

Lemma onIndexChange_run (this : Pager) :
  Pager.onIndexChange this
  = match prevValue this with
    | None => (0, setPrevValue (values this _nextIndex) this, [])
    | Some p =>
        if Qeq_bool (values this _nextIndex) p then (0, this, [])
        else if Qeq_bool (values this _index) (values this _nextIndex)
                || truthy (values this _isSwipeGesture)
        then (NOOP, setPrevValue (values this _nextIndex) this, [])
        else (values this _nextIndex,
              setValue _index (values this _nextIndex)
                (setRunning false (setPrevValue (values this _nextIndex) this)),
              [])
    end.
Proof.
  unfold Pager.onIndexChange, Animated.onChange.
  destruct (prevValue this) as [p|] eqn:P.
  - repeat (exec; rewrite ?P).
    destruct (Qeq_bool (values this _nextIndex) p); [reflexivity|].
    exec.
    destruct (Qeq_bool (values this _index) (values this _nextIndex)); exec;
      [reflexivity|].
    destruct (truthy (values this _isSwipeGesture)); reflexivity.
  - repeat (exec; rewrite ?P). rewrite Qeq_bool_same. reflexivity.
Qed.

Lemma whileActive_run (this : Pager) :
  Pager.whileActive this
  = (0,
     setRunning false
       (setValue _position
          (values (grabbed this) _offsetX + values (grabbed this) _gestureX)
          (grabbed this)),
     []).
Proof.
  unfold Pager.whileActive, grabbed. exec.
  destruct (truthy (values this _isSwiping)); reflexivity.
Qed.

Lemma spring_run (integrate : Animated.Integrator) (this : Pager) :
  Animated.spring integrate
    {| Animated.position := _position; Animated.velocity := _velocityX;
       Animated.time := state_time; Animated.finished := state_finished |}
    {| Animated.params := SPRING_CONFIG; Animated.toValue := config_toValue |} this
  = (0, sprung integrate this, []).
Proof. reflexivity. Qed.

(** The next-index expression reads five cells only. *)
Lemma releaseIndex_reads (a b : Pager) :
  (forall c, In c [_gestureX; _velocityX; _layoutWidth; _index; _routesLength] ->
             values a c = values b c) ->
  result (Pager.releaseIndex a) = result (Pager.releaseIndex b)
  /\ events (Pager.releaseIndex a) = events (Pager.releaseIndex b).
Proof.
  intro H.
  assert (G : values a _gestureX = values b _gestureX) by (apply H; cbn; tauto).
  assert (V : values a _velocityX = values b _velocityX) by (apply H; cbn; tauto).
  assert (W : values a _layoutWidth = values b _layoutWidth) by (apply H; cbn; tauto).
  assert (X : values a _index = values b _index) by (apply H; cbn; tauto).
  assert (R : values a _routesLength = values b _routesLength) by (apply H; cbn; tauto).
  rewrite !releaseIndex_run, !swipeDirection_run.
  unfold swipes, swipeDistanceThreshold. rewrite G, V, W, X, R.
  destruct (Qgtb (Qabs (values b _gestureX)) _); cbn [orb result events fst snd];
    [auto|].
  destruct (Qgtb (Qabs (values b _velocityX)) _); cbn [result events fst snd]; auto.
Qed.

Lemma transitionTo_run (integrate : Animated.Integrator) (this : Pager) :
  let r := Pager.releaseIndex this in
  let this1 := if running (_clock this) then this else started (result r) this in
  let this2 := sprung integrate this1 in
  let ev1 := if running (_clock this) then [] else events r ++ events r in
  Pager.transitionTo integrate Pager.releaseIndex this
  = if truthy (values this2 state_finished)
    then (0, atRest this2, ev1 ++ Pager.commit [values this2 _index] (atRest this2))
    else (0, this2, ev1).
Proof.
  cbv zeta. unfold Pager.transitionTo. cbv zeta.
  cbn [Animated.block].
  unfold bind at 1. unfold Animated.cond at 1. unfold bind at 1.
  unfold Animated.clockRunning at 1. rewrite truthy_ofbool.
  destruct (running (_clock this)) eqn:Run.
  - unfold Animated.num at 1, ret at 1.
    unfold bind at 1. rewrite spring_run. exec.
    destruct (truthy (values (sprung integrate this) state_finished)); reflexivity.
  - cbn [Animated.finished Animated.time Animated.toValue].
    unfold Animated.set at 1, Animated.multiply, Animated.value at 1,
      Animated.num at 1, bind at 1 2 3 4 5 6, ret at 1 2.
    pose proof (releaseIndex_after this) as A.
    destruct (Pager.releaseIndex this) as [[i this'] ev] eqn:Ri.
    cbn [after fst snd] in A. subst this'.
    exec.
    match goal with |- context [Pager.releaseIndex ?s] =>
      pose proof (releaseIndex_reads s this) as [Rr Re];
      [intros c [<-|[<-|[<-|[<-|[<-|[]]]]]]; reflexivity|];
      pose proof (releaseIndex_after s) as A2;
      destruct (Pager.releaseIndex s) as [[i2 s2] ev2]
    end.
    rewrite Ri in Rr, Re. cbn [result events after fst snd] in Rr, Re, A2.
    subst i2 ev2 s2.
    exec. rewrite spring_run. exec.
    fold (started i this).
    destruct (truthy (values (sprung integrate (started i this)) state_finished));
      rewrite ?app_nil_r; reflexivity.
Qed.

Lemma whenReleased_run (integrate : Animated.Integrator) (this : Pager) :
  Pager.whenReleased integrate this
  = Pager.transitionTo integrate Pager.releaseIndex (setValue _isSwiping FALSE this).
Proof.
  unfold Pager.whenReleased. exec.
  destruct (Pager.transitionTo _ _ _) as [[x s] ev]. reflexivity.
Qed.

Lemma onIndexChange_reads (this : Pager) (c : Cell) :
  c <> _index ->
  values (after (Pager.onIndexChange this)) c = values this c.
Proof.
  intro H. rewrite onIndexChange_run.
  destruct (prevValue this) as [p|]; [|reflexivity].
  destruct (Qeq_bool _ p); [reflexivity|].
  destruct (_ || _); [reflexivity|].
  destruct c; try reflexivity. congruence.
Qed.

Lemma translateX_run (integrate : Animated.Integrator) (this : Pager) :
  let r1 := Pager.onIndexChange this in
  let r2 :=
    if Qeq_bool (values this _gestureState) State.ACTIVE
    then Pager.whileActive (after r1)
    else Pager.whenReleased integrate (after r1) in
  Pager.translateX integrate this
  = (values (after r2) _position, after r2, events r1 ++ events r2).
Proof.
  cbv zeta. unfold Pager.translateX. exec.
  pose proof (onIndexChange_reads this _gestureState) as G.
  destruct (Pager.onIndexChange this) as [[x1 s1] ev1].
  cbn [after fst snd] in G. exec. rewrite G by discriminate.
  destruct (Qeq_bool (values this _gestureState) State.ACTIVE).
  - destruct (Pager.whileActive s1) as [[x2 s2] ev2]. exec.
    rewrite app_nil_r. reflexivity.
  - destruct (Pager.whenReleased integrate s1) as [[x2 s2] ev2]. exec.
    rewrite app_nil_r. reflexivity.
Qed.

Lemma frame_run (integrate : Animated.Integrator) (t : Q) (this : Pager) :
  let r := Pager.translateX integrate (setNow t this) in
  let m := Pager.maxTranslate (props this) in
  Pager.frame integrate t this
  = (if Qgtb (- m) (result r) then - m
     else if Qgtb (result r) 0 then 0
     else - m + (result r - - m) / (0 - - m) * (0 - - m),
     after r, events r).
Proof.
  cbv zeta. unfold Pager.frame, Pager.render_translateX, Animated.interpolate_clamp.
  exec. destruct (Pager.translateX integrate (setNow t this)) as [[x s] ev].
  exec. rewrite app_nil_r. reflexivity.
Qed.

(** ** Snap back *)

Ltac cells :=
  unfold atRest, sprung, started, grabbed;
  cbn [values prevValue _clock props running now
       setValue setPrevValue setRunning setNow setProps update Cell_eqb].

Lemma swipes_false (this : Pager) :
  Qabs (values this _gestureX) <= swipeDistanceThreshold this ->
  Qabs (values this _velocityX) <= swipeVelocityThreshold ->
  swipes this = false.
Proof.
  intros G V. unfold swipes. apply orb_false_iff.
  split; apply Qgtb_false; assumption.
Qed.

Lemma releaseIndex_snap_back (this : Pager) :
  swipes this = false ->
  Pager.releaseIndex this
  = (values this _index, this, [EvDivide (values this _layoutWidth) 1.75]).
Proof. intro S. rewrite releaseIndex_run, S. reflexivity. Qed.

Lemma swipes_reads (a b : Pager) :
  values a _gestureX = values b _gestureX ->
  values a _velocityX = values b _velocityX ->
  values a _layoutWidth = values b _layoutWidth ->
  swipes a = swipes b.
Proof.
  intros G V W. unfold swipes, swipeDistanceThreshold. rewrite G, V, W. reflexivity.
Qed.

Lemma transitionTo_snap_back (integrate : Animated.Integrator) (this : Pager) :
  swipes this = false ->
  values (after (Pager.transitionTo integrate Pager.releaseIndex this)) _index
  = values this _index.
Proof.
  intro S. rewrite transitionTo_run, (releaseIndex_snap_back this S).
  cbn [result fst].
  destruct (running (_clock this));
    match goal with |- context [if ?b then _ else _] => destruct b end;
    reflexivity.
Qed.

Lemma whenReleased_snap_back (integrate : Animated.Integrator) (this : Pager) :
  swipes this = false ->
  values (after (Pager.whenReleased integrate this)) _index = values this _index.
Proof.
  intro S. rewrite whenReleased_run.
  rewrite transitionTo_snap_back; [reflexivity|].
  rewrite <- S. apply swipes_reads; reflexivity.
Qed.

Lemma onIndexChange_quiet (this : Pager) :
  noPendingIndex this ->
  after (Pager.onIndexChange this)
  = match prevValue this with
    | None => setPrevValue (values this _nextIndex) this
    | Some _ => this
    end
  /\ events (Pager.onIndexChange this) = [].
Proof.
  unfold noPendingIndex. intro H. rewrite onIndexChange_run.
  destruct (prevValue this) as [p|]; [|split; reflexivity].
  apply Qeq_bool_iff in H. rewrite H. split; reflexivity.
Qed.

Lemma frame_snap_back (integrate : Animated.Integrator) (t : Q) (this : Pager) :
  released this ->
  noPendingIndex this ->
  swipes this = false ->
  values (after (Pager.frame integrate t this)) _index = values this _index.
Proof.
  intros R P S. rewrite frame_run. cbn [after fst snd].
  rewrite translateX_run. cbn [after fst snd].
  apply Qeq_bool_false in R. cbn [values setNow]. rewrite R.
  destruct (onIndexChange_quiet (setNow t this) P) as [-> _].
  cbn [prevValue setNow].
  destruct (prevValue this); (rewrite whenReleased_snap_back; [reflexivity|]);
    rewrite <- S; apply swipes_reads; reflexivity.
Qed.

Lemma threshold_350 (this : Pager) :
  values this _layoutWidth == 350 -> swipeDistanceThreshold this == 200.
Proof. intro W. unfold swipeDistanceThreshold. rewrite W. reflexivity. Qed.

(** C1. Snap back: when neither the distance of the drag is at least
    [swipeDistanceThreshold = LayoutWidth / 1.75] nor its speed is at least
    [swipeVelocityThreshold = 1200], the index computed on release is the
    current [_index], and [_index] is what it was after the release arm
    and after the whole frame.  For a layout width of 350 the threshold is
    200, and a release with [gestureX = -199], or with [|gestureX|] equal
    to the threshold, and [velocityX = 0] leaves the index as it is. *)
Theorem C1_snap_back :
  (forall integrate t this,
      ~ swipeDistanceThreshold this <= Qabs (values this _gestureX) ->
      ~ swipeVelocityThreshold <= Qabs (values this _velocityX) ->
      result (Pager.releaseIndex this) = values this _index
      /\ values (after (Pager.whenReleased integrate this)) _index = values this _index
      /\ (released this -> noPendingIndex this ->
          values (after (Pager.frame integrate t this)) _index = values this _index))
  /\ (forall this,
        values this _layoutWidth == 350 ->
        result (Pager._swipeDistanceThreshold this) == 200)
  /\ (forall integrate t this,
        values this _layoutWidth == 350 ->
        values this _velocityX == 0 ->
        values this _gestureX == -199
        \/ Qabs (values this _gestureX) == swipeDistanceThreshold this ->
        result (Pager.releaseIndex this) = values this _index
        /\ values (after (Pager.whenReleased integrate this)) _index = values this _index
        /\ (released this -> noPendingIndex this ->
            values (after (Pager.frame integrate t this)) _index = values this _index)).
Proof.
  assert (K : forall integrate t this, swipes this = false ->
      result (Pager.releaseIndex this) = values this _index
      /\ values (after (Pager.whenReleased integrate this)) _index = values this _index
      /\ (released this -> noPendingIndex this ->
          values (after (Pager.frame integrate t this)) _index = values this _index)).
  { intros integrate t this S. split; [|split].
    - rewrite (releaseIndex_snap_back this S). reflexivity.
    - apply whenReleased_snap_back. exact S.
    - intros R P. apply frame_snap_back; assumption. }
  split; [|split].
  - intros integrate t this G V. apply K. apply swipes_false; lra.
  - intros this W. rewrite swipeDistanceThreshold_run. cbn [result fst].
    apply threshold_350. exact W.
  - intros integrate t this W V G. apply K.
    pose proof (threshold_350 this W) as T.
    apply swipes_false.
    + destruct G as [G|G]; [rewrite G, T; cbn; lra | lra].
    + rewrite V. unfold swipeVelocityThreshold. cbn. lra.
Qed.

(** Closed facts about numbers and runs, by evaluation. *)
Ltac by_evaluation :=
  vm_compute;
  first [ reflexivity | discriminate | exact I
        | let H := fresh in intro H; first [discriminate H | apply H; reflexivity] ].

Lemma C1_snap_back_witness :
  swipeDistanceThreshold (pagerWith 0 (-199) 0) == 200
  /\ result (Pager.releaseIndex (pagerWith 0 (-199) 0)) = 0
  /\ values (after (Pager.frame glide 16 (pagerWith 0 (-199) 0))) _index = 0.
Proof.
  destruct (proj1 C1_snap_back glide 16 (pagerWith 0 (-199) 0)) as (A & _ & B).
  - by_evaluation.
  - by_evaluation.
  - split; [reflexivity|]. split; [exact A|].
    apply B; by_evaluation.
Defined.

(** ** Direction and candidate index *)

Lemma swipes_true (this : Pager) :
  swipes this = true <->
  swipeDistanceThreshold this < Qabs (values this _gestureX)
  \/ swipeVelocityThreshold < Qabs (values this _velocityX).
Proof.
  unfold swipes. rewrite orb_true_iff, !Qgtb_true. reflexivity.
Qed.

Lemma swipeDirection_by_distance (this : Pager) :
  0 <= values this _layoutWidth ->
  swipeDistanceThreshold this < Qabs (values this _gestureX) ->
  result (Pager.swipeDirection this) == Qsign (values this _gestureX).
Proof.
  intros W G. pose proof (threshold_nonneg this W) as T.
  rewrite swipeDirection_run.
  apply Qgtb_true in G. rewrite G. cbn [result fst].
  apply Qgtb_true in G.
  apply Qdiv_abs_sign. intro Z. rewrite Z in G. cbn in G. lra.
Qed.

Lemma swipeDirection_by_velocity (this : Pager) :
  Qabs (values this _gestureX) <= swipeDistanceThreshold this ->
  swipeVelocityThreshold < Qabs (values this _velocityX) ->
  result (Pager.swipeDirection this) == Qsign (values this _velocityX).
Proof.
  intros G V. rewrite swipeDirection_run.
  apply Qgtb_false in G. rewrite G. cbn [result fst].
  apply Qdiv_abs_sign. intro Z. rewrite Z in V.
  unfold swipeVelocityThreshold in V. cbn in V. lra.
Qed.

Lemma Qsign_cases (x : Q) : ~ x == 0 -> Qsign x = 1 \/ Qsign x = -1.
Proof.
  intro H. unfold Qsign.
  destruct (Z.sgn_spec (Qnum x)) as [[_ ->]|[[Z _]|[_ ->]]]; auto.
  exfalso. apply H. unfold Qeq. cbn. lia.
Qed.

Lemma swipeDirection_unit (this : Pager) :
  0 <= values this _layoutWidth ->
  swipes this = true ->
  result (Pager.swipeDirection this) == 1 \/ result (Pager.swipeDirection this) == -1.
Proof.
  intros W S. pose proof (threshold_nonneg this W) as T.
  destruct (Qlt_le_dec (swipeDistanceThreshold this) (Qabs (values this _gestureX)))
    as [G|G].
  - rewrite (swipeDirection_by_distance this W G).
    destruct (Qsign_cases (values this _gestureX)) as [-> | ->];
      [|left; reflexivity|right; reflexivity].
    intro Z. rewrite Z in G. cbn in G. lra.
  - apply swipes_true in S. destruct S as [S|S]; [lra|].
    rewrite (swipeDirection_by_velocity this G S).
    destruct (Qsign_cases (values this _velocityX)) as [-> | ->];
      [|left; reflexivity|right; reflexivity].
    intro Z. rewrite Z in S. unfold swipeVelocityThreshold in S. cbn in S. lra.
Qed.

Lemma releaseIndex_swipe (this : Pager) (n : Z) :
  values this _routesLength == inject_Z n ->
  swipes this = true ->
  result (Pager.releaseIndex this)
  = inject_Z (clamp 0 (n - 1)
                (Math_round (values this _index - result (Pager.swipeDirection this)))).
Proof.
  intros R S. rewrite releaseIndex_run, S. cbn [result fst].
  f_equal. apply round_clamp_Q.
  unfold Z.sub. rewrite inject_Z_plus, R. reflexivity.
Qed.

Lemma inject_Z_pred (n : Z) : inject_Z (n - 1) == inject_Z n - 1.
Proof. unfold Z.sub. rewrite inject_Z_plus. reflexivity. Qed.

Lemma Qsign_neg (x : Q) : x < 0 -> Qsign x = -1.
Proof.
  intro H. unfold Qsign. rewrite Z.sgn_neg; [reflexivity|].
  unfold Qlt in H. cbn in H. lia.
Qed.

Lemma Qsign_pos (x : Q) : 0 < x -> Qsign x = 1.
Proof.
  intro H. unfold Qsign. rewrite Z.sgn_pos; [reflexivity|].
  unfold Qlt in H. cbn in H. lia.
Qed.

(** C2, as the specification words it, fails where the drag ends exactly
    on the distance threshold: with a layout width of 350 and
    [gestureX = -200] the distance threshold is met, yet with
    [velocityX = 1300] the direction is that of the velocity, not
    sign(gestureX), and the pager goes from index 1 to index 0. *)
Lemma C2_direction_at_threshold :
  swipeDistanceThreshold (pagerWith 1 (-200) 1300)
    <= Qabs (values (pagerWith 1 (-200) 1300) _gestureX)
  /\ Qsign (values (pagerWith 1 (-200) 1300) _gestureX) == -1
  /\ result (Pager.swipeDirection (pagerWith 1 (-200) 1300)) == 1
  /\ ~ result (Pager.swipeDirection (pagerWith 1 (-200) 1300))
       == Qsign (values (pagerWith 1 (-200) 1300) _gestureX)
  /\ result (Pager.releaseIndex (pagerWith 1 (-200) 1300)) == 0.
Proof.
  repeat split; by_evaluation.
Qed.

(** C2, amended.  The direction is sign(gestureX) when [|gestureX|] is
    strictly greater than the distance threshold; otherwise, when
    [|velocityX|] is strictly greater than 1200, it is sign(velocityX).
    With a layout width of 350, [gestureX = -50] and [velocityX = -1300]
    the direction is -1 and the next index is [_index + 1], rounded and
    clamped into the range of the routes. *)
Theorem C2_direction_strict :
  forall this : Pager,
    0 <= values this _layoutWidth ->
    (swipeDistanceThreshold this < Qabs (values this _gestureX) ->
     result (Pager.swipeDirection this) == Qsign (values this _gestureX))
    /\ (Qabs (values this _gestureX) <= swipeDistanceThreshold this ->
        swipeVelocityThreshold < Qabs (values this _velocityX) ->
        result (Pager.swipeDirection this) == Qsign (values this _velocityX))
    /\ (values this _layoutWidth == 350 ->
        values this _gestureX == -50 ->
        values this _velocityX == -1300 ->
        forall n : Z,
          values this _routesLength == inject_Z n ->
          result (Pager.swipeDirection this) == -1
          /\ result (Pager.releaseIndex this)
             = inject_Z (clamp 0 (n - 1) (Math_round (values this _index + 1)))).
Proof.
  intros this W. split; [|split].
  - apply swipeDirection_by_distance. exact W.
  - apply swipeDirection_by_velocity.
  - intros W350 G V n R.
    pose proof (threshold_350 this W350) as T.
    assert (G' : Qabs (values this _gestureX) <= swipeDistanceThreshold this)
      by (rewrite G, T; cbn; lra).
    assert (V' : swipeVelocityThreshold < Qabs (values this _velocityX))
      by (rewrite V; unfold swipeVelocityThreshold; cbn; lra).
    assert (D : result (Pager.swipeDirection this) == -1).
    { rewrite (swipeDirection_by_velocity this G' V').
      rewrite Qsign_neg by lra. reflexivity. }
    split; [exact D|].
    rewrite (releaseIndex_swipe this n R) by (apply swipes_true; right; exact V').
    f_equal. f_equal. apply Math_round_comp. rewrite D. ring.
Qed.

Lemma C2_direction_strict_witness :
  result (Pager.swipeDirection (pagerWith 0 (-50) (-1300))) == -1
  /\ result (Pager.releaseIndex (pagerWith 0 (-50) (-1300))) = 1.
Proof.
  destruct (C2_direction_strict (pagerWith 0 (-50) (-1300))) as (_ & _ & H).
  - by_evaluation.
  - destruct (H ltac:(by_evaluation) ltac:(by_evaluation) ltac:(by_evaluation) 3%Z)
      as [D R].
    + by_evaluation.
    + split; [exact D | exact R].
Defined.

(** C3. On a release that qualifies as a swipe the direction is 1 or -1
    and the next index is round(_index - direction) clamped into
    [[0, n - 1]], where [n] is the number of routes: it is never out of
    range; at the last index a swipe that advances (direction -1) gives
    the last index again; and from index 0 of 3 routes, with a layout
    width of 350, a release with [gestureX = -201] gives index 1. *)
Theorem C3_candidate_clamped :
  forall (this : Pager) (n : Z),
    0 <= values this _layoutWidth ->
    values this _routesLength == inject_Z n ->
    swipeDistanceThreshold this < Qabs (values this _gestureX)
    \/ swipeVelocityThreshold < Qabs (values this _velocityX) ->
    (result (Pager.swipeDirection this) == 1
     \/ result (Pager.swipeDirection this) == -1)
    /\ result (Pager.releaseIndex this)
       = inject_Z (clamp 0 (n - 1)
                     (Math_round (values this _index
                                  - result (Pager.swipeDirection this))))
    /\ ((1 <= n)%Z ->
        0 <= result (Pager.releaseIndex this) <= inject_Z n - 1)
    /\ ((1 <= n)%Z ->
        values this _index == inject_Z n - 1 ->
        result (Pager.swipeDirection this) == -1 ->
        result (Pager.releaseIndex this) = inject_Z (n - 1))
    /\ (values this _layoutWidth == 350 ->
        values this _gestureX == -201 ->
        values this _index == 0 ->
        n = 3%Z ->
        result (Pager.releaseIndex this) = 1).
Proof.
  intros this n W R S. apply swipes_true in S.
  pose proof (releaseIndex_swipe this n R S) as E.
  split; [apply swipeDirection_unit; assumption|].
  split; [exact E|].
  split; [|split].
  - intro N. rewrite E.
    pose proof (clamp_range (n - 1)
      (Math_round (values this _index - result (Pager.swipeDirection this)))
      ltac:(lia)) as [L U].
    rewrite Zle_Qle in L, U. change (inject_Z 0) with 0 in L.
    rewrite inject_Z_pred in U. lra.
  - intros N X D. rewrite E. f_equal.
    rewrite (Math_round_comp _ (inject_Z n)) by (rewrite X, D; ring).
    rewrite Math_round_Z. unfold clamp. lia.
  - intros W350 G X ->. rewrite E.
    pose proof (threshold_350 this W350) as T.
    assert (D : result (Pager.swipeDirection this) == -1).
    { rewrite swipeDirection_by_distance; [|exact W|rewrite G, T; cbn; lra].
      rewrite Qsign_neg by lra. reflexivity. }
    rewrite (Math_round_comp _ (inject_Z 1)) by (rewrite X, D; reflexivity).
    reflexivity.
Qed.

Lemma C3_candidate_clamped_witness :
  result (Pager.releaseIndex (pagerWith 0 (-201) 0)) = 1
  /\ result (Pager.releaseIndex (pagerWith 2 (-201) 0)) = 2.
Proof.
  split.
  - apply (C3_candidate_clamped (pagerWith 0 (-201) 0) 3); try by_evaluation.
    left. by_evaluation.
  - assert (S : swipeDistanceThreshold (pagerWith 2 (-201) 0)
                  < Qabs (values (pagerWith 2 (-201) 0) _gestureX)
                \/ swipeVelocityThreshold
                   < Qabs (values (pagerWith 2 (-201) 0) _velocityX))
      by (left; by_evaluation).
    apply (C3_candidate_clamped (pagerWith 2 (-201) 0) 3
             ltac:(by_evaluation) ltac:(by_evaluation) S);
      by_evaluation.
Defined.

(** C8. With a layout width that is not negative, every division that an
    evaluation of [translateX] performs has a denominator other than zero:
    the two divisions that resolve the direction (evaluated only on a
    release that qualifies as a swipe), those of the whole next-index
    expression and those of a whole frame.  A release with
    [velocityX = 0] and a distance not above the threshold evaluates the
    division of the threshold only, and gives the current index. *)
Theorem C8_division_defined :
  forall (integrate : Animated.Integrator) (t : Q) (this : Pager),
    0 <= values this _layoutWidth ->
    (swipeDistanceThreshold this < Qabs (values this _gestureX)
     \/ swipeVelocityThreshold < Qabs (values this _velocityX) ->
     Forall divisionDefined (events (Pager.swipeDirection this)))
    /\ Forall divisionDefined (events (Pager.releaseIndex this))
    /\ Forall divisionDefined (events (Pager.frame integrate t this))
    /\ (values this _velocityX == 0 ->
        Qabs (values this _gestureX) <= swipeDistanceThreshold this ->
        Pager.releaseIndex this
        = (values this _index, this, [EvDivide (values this _layoutWidth) 1.75])).
Proof.
  intros integrate t this W. split; [|split; [|split]].
  - intro S. apply swipeDirection_divisions; [exact W | apply swipes_true; exact S].
  - apply releaseIndex_divisions. exact W.
  - apply frame_divisions. exact W.
  - intros V G. apply releaseIndex_snap_back, swipes_false; [exact G|].
    rewrite V. unfold swipeVelocityThreshold. cbn. lra.
Qed.

Lemma C8_division_defined_witness :
  Forall divisionDefined (events (Pager.frame glide 16 (pagerWith 0 (-50) (-1300))))
  /\ Pager.releaseIndex (pagerWith 1 (-199) 0)
     = (values (pagerWith 1 (-199) 0) _index, pagerWith 1 (-199) 0,
        [EvDivide (values (pagerWith 1 (-199) 0) _layoutWidth) 1.75]).
Proof.
  split.
  - apply (C8_division_defined glide 16 (pagerWith 0 (-50) (-1300))). by_evaluation.
  - apply (C8_division_defined glide 16 (pagerWith 1 (-199) 0)); by_evaluation.
Defined.

(** C10. When the pager is constructed with a falsy layout width (the
    number 0), the cell [_layoutWidth] is seeded with 320, so that the
    distance threshold is 320 / 1.75 and not 0, while the initial
    [_position] is computed from the width that was supplied and is 0
    whatever the initial index is. *)
Theorem C10_zero_width_seeding :
  forall p : Props,
    truthy (width (layout p)) = false ->
    width (layout p) == 0
    /\ values (Pager.construct p) _layoutWidth = 320
    /\ result (Pager._swipeDistanceThreshold (Pager.construct p)) == 320 / 1.75
    /\ ~ result (Pager._swipeDistanceThreshold (Pager.construct p)) == 0
    /\ values (Pager.construct p) _position == 0.
Proof.
  intros p F.
  assert (L : values (Pager.construct p) _layoutWidth = 320).
  { cbn [Pager.construct values]. unfold js_or. rewrite F. reflexivity. }
  pose proof (proj1 (truthy_false _) F) as Z.
  split; [exact Z|]. split; [exact L|].
  rewrite swipeDistanceThreshold_run. cbn [result fst].
  unfold swipeDistanceThreshold. rewrite L.
  split; [reflexivity|]. split; [by_evaluation|].
  cbn [Pager.construct values]. rewrite Z. ring.
Qed.

Lemma C10_zero_width_seeding_witness :
  values (Pager.construct (propsAt 2 0)) _layoutWidth = 320
  /\ values (Pager.construct (propsAt 2 0)) _position == 0.
Proof.
  destruct (C10_zero_width_seeding (propsAt 2 0)) as (_ & L & _ & _ & P).
  - reflexivity.
  - split; [exact L | exact P].
Defined.

(** ** The range invariant and the commit *)

Lemma propsAt_propsFor (i w : Q) :
  0 <= i <= 2 -> 0 <= w -> propsFor 3 (propsAt i w).
Proof.
  intros I W. split; [reflexivity|]. split; [|exact W].
  cbn [propsAt navigationState index].
  change (inject_Z (Z.of_nat 3) - 1) with (3 - 1). lra.
Qed.

(** C7, as stated, fails in the middle of a drag: a pager of three routes
    at index 0, dragged 50 units to the right, is reachable and has
    [_position = 50], above the range [[-(3 - 1) * 350, 0]]. *)
Lemma C7_position_leaves_range :
  reachable glide 3 draggedRight
  /\ values draggedRight _gestureState == State.ACTIVE
  /\ values draggedRight _position == 50
  /\ ~ (- ((3 - 1) * 350) <= values draggedRight _position <= 0).
Proof.
  split; [|split; [|split]].
  - unfold draggedRight. apply reach_frame, reach_gesture, reach_construct.
    apply propsAt_propsFor; lra.
  - by_evaluation.
  - by_evaluation.
  - intros [_ H]. revert H. by_evaluation.
Qed.

Lemma interpolate_range (m x : Q) :
  0 < m ->
  - m <= (if Qgtb (- m) x then - m
          else if Qgtb x 0 then 0
          else - m + (x - - m) / (0 - - m) * (0 - - m)) <= 0.
Proof.
  intro M.
  destruct (Qgtb (- m) x) eqn:A; [lra|].
  destruct (Qgtb x 0) eqn:B; [lra|].
  apply Qgtb_false in A, B.
  assert (E : - m + (x - - m) / (0 - - m) * (0 - - m) == x) by (field; lra).
  rewrite E. lra.
Qed.

(** C7, amended.  For a page set of [n] routes and a host that supplies
    indices within [[0, n - 1]] and widths that are not negative, every
    reachable pager has [0 <= _index <= n - 1], and the translation that a
    frame hands to the view lies in [[-maxTranslate, 0]], where
    [maxTranslate] is [layout.width * (routes.length - 1)], when that
    bound is positive.  (Nothing is said of the cell [_position] itself.) *)
Theorem C7_index_and_rendered_range :
  forall (integrate : Animated.Integrator) (n : nat) (this : Pager),
    reachable integrate n this ->
    0 <= values this _index <= inject_Z (Z.of_nat n) - 1
    /\ forall t : Q,
         0 < Pager.maxTranslate (props this) ->
         - Pager.maxTranslate (props this)
           <= result (Pager.frame integrate t this) <= 0.
Proof.
  intros integrate n this R.
  destruct (reachable_inRange integrate n this R) as (_ & _ & X & _).
  split; [exact X|].
  intros t M. rewrite frame_run. cbn [result fst].
  apply interpolate_range. exact M.
Qed.

Lemma C7_index_and_rendered_range_witness :
  0 <= values draggedRight _index <= 2
  /\ - Pager.maxTranslate (props draggedRight)
       <= result (Pager.frame glide 32 draggedRight) <= 0.
Proof.
  destruct (C7_index_and_rendered_range glide 3 draggedRight) as [X T].
  - unfold draggedRight. apply reach_frame, reach_gesture, reach_construct.
    apply propsAt_propsFor; lra.
  - split; [exact X|]. apply T. by_evaluation.
Defined.

(** C9, as stated, fails: a host that supplies the index 5 to a pager of
    three routes finds [_index = 5] after the next frame, not a clamped
    index, and the commit at the end of the transition looks up
    [routes[5]] and fails. *)
Lemma C9_index_five_not_clamped :
  values (fst (run snap hostWithIndexFive (Pager.construct (propsAt 0 350)))) _index == 5
  /\ snd (run snap hostWithIndexFive (Pager.construct (propsAt 0 350)))
     = [EvDivide 350 1.75; EvDivide 350 1.75; EvJumpTo "first";
        EvDivide 350 1.75; EvDivide 350 1.75; EvTypeError].
Proof.
  split; by_evaluation.
Qed.

(** ** An index that changes from outside *)

Lemma receiveProps_withIndex (i : Q) (this : Pager) :
  ~ i == index (navigationState (props this)) ->
  Pager.receiveProps (withIndex i (props this)) this
  = setValue _nextIndex i
      (setValue _isSwipeGesture FALSE (setProps (withIndex i (props this)) this)).
Proof.
  intro H. apply Qeq_bool_false in H.
  unfold Pager.receiveProps, Pager.componentDidUpdate.
  cbn [props setProps withIndex navigationState index routes layout].
  rewrite H, Nat.eqb_refl, Qeq_bool_same. reflexivity.
Qed.

Lemma frame_parts (integrate : Animated.Integrator) (t : Q) (this : Pager) :
  after (Pager.frame integrate t this)
  = after (if Qeq_bool (values this _gestureState) State.ACTIVE
           then Pager.whileActive (after (Pager.onIndexChange (setNow t this)))
           else Pager.whenReleased integrate
                  (after (Pager.onIndexChange (setNow t this))))
  /\ events (Pager.frame integrate t this)
     = events (Pager.onIndexChange (setNow t this))
       ++ events (if Qeq_bool (values this _gestureState) State.ACTIVE
                  then Pager.whileActive (after (Pager.onIndexChange (setNow t this)))
                  else Pager.whenReleased integrate
                         (after (Pager.onIndexChange (setNow t this)))).
Proof.
  rewrite frame_run, translateX_run. split; reflexivity.
Qed.

Lemma onIndexChange_fires (this : Pager) (pv : Q) :
  prevValue this = Some pv ->
  ~ values this _nextIndex == pv ->
  ~ values this _index == values this _nextIndex ->
  truthy (values this _isSwipeGesture) = false ->
  Pager.onIndexChange this
  = (values this _nextIndex,
     setValue _index (values this _nextIndex)
       (setRunning false (setPrevValue (values this _nextIndex) this)),
     []).
Proof.
  intros P N X G. rewrite onIndexChange_run, P.
  apply Qeq_bool_false in N, X. rewrite N, X, G. reflexivity.
Qed.

Lemma onIndexChange_same (this : Pager) (pv : Q) :
  prevValue this = Some pv ->
  ~ values this _nextIndex == pv ->
  values this _index == values this _nextIndex ->
  Pager.onIndexChange this
  = (NOOP, setPrevValue (values this _nextIndex) this, []).
Proof.
  intros P N X. rewrite onIndexChange_run, P.
  apply Qeq_bool_false in N. apply Qeq_bool_iff in X. rewrite N, X. reflexivity.
Qed.

(** The frame that starts a transition: the clock is not running and the
    release does not qualify as a swipe. *)
Lemma whenReleased_starts (integrate : Animated.Integrator) (this : Pager) :
  running (_clock this) = false ->
  swipes this = false ->
  let m := firstSpringStep integrate (now (_clock this)) (values this _index) this in
  values (after (Pager.whenReleased integrate this)) _index = values this _index
  /\ values (after (Pager.whenReleased integrate this)) config_toValue
     = values this _index * values this _layoutWidth * -1
  /\ values (after (Pager.whenReleased integrate this)) _position
     = Animated.at_position m
  /\ running (_clock (after (Pager.whenReleased integrate this)))
     = negb (truthy (Animated.is_finished m))
  /\ events (Pager.whenReleased integrate this)
     = [EvDivide (values this _layoutWidth) 1.75;
        EvDivide (values this _layoutWidth) 1.75]
       ++ if truthy (Animated.is_finished m)
          then Pager.commit [values this _index] this
          else [].
Proof.
  intros R S m.
  rewrite whenReleased_run, transitionTo_run.
  assert (S' : swipes (setValue _isSwiping FALSE this) = false)
    by (rewrite <- S; apply swipes_reads; reflexivity).
  rewrite (releaseIndex_snap_back _ S').
  cbn [_clock setValue running result events fst snd]. rewrite R.
  unfold Pager.commit. cells.
  change (springStep integrate _) with m.
  destruct (truthy (Animated.is_finished m)); cbn [after events fst snd negb app];
    cells; repeat split; reflexivity.
Qed.

(** The frame after the host has changed the index to [i], with the
    finger off the screen and no swipe to resolve. *)
Lemma outside_change_released
    (integrate : Animated.Integrator) (t : Q) (this : Pager) (i pv : Q) :
  ~ i == index (navigationState (props this)) ->
  prevValue this = Some pv ->
  ~ i == pv ->
  ~ values this _index == i ->
  released this ->
  swipes this = false ->
  values (after (Pager.frame integrate t
                   (Pager.receiveProps (withIndex i (props this)) this))) _index = i
  /\ values (after (Pager.frame integrate t
                      (Pager.receiveProps (withIndex i (props this)) this)))
       config_toValue
     = i * values this _layoutWidth * -1
  /\ values (after (Pager.frame integrate t
                      (Pager.receiveProps (withIndex i (props this)) this))) _position
     = Animated.at_position (firstSpringStep integrate t i this)
  /\ running (_clock (after (Pager.frame integrate t
                               (Pager.receiveProps (withIndex i (props this)) this))))
     = negb (truthy (Animated.is_finished (firstSpringStep integrate t i this))).
Proof.
  intros C P N X R S.
  rewrite (receiveProps_withIndex i this C).
  set (s := setValue _nextIndex i _).
  destruct (frame_parts integrate t s) as [-> _].
  apply Qeq_bool_false in R.
  replace (values s _gestureState) with (values this _gestureState) by reflexivity.
  rewrite R.
  rewrite (onIndexChange_fires (setNow t s) pv); [|exact P|exact N|exact X|reflexivity].
  cbn [after fst snd].
  match goal with |- context [Pager.whenReleased integrate ?s1] =>
    destruct (whenReleased_starts integrate s1) as (A & B & D & E & _);
    [reflexivity | rewrite <- S; apply swipes_reads; reflexivity |]
  end.
  repeat split; [exact A | exact B | exact D | exact E].
Qed.

Lemma outside_change_active
    (integrate : Animated.Integrator) (t : Q) (this : Pager) (i pv : Q) :
  ~ i == index (navigationState (props this)) ->
  prevValue this = Some pv ->
  ~ i == pv ->
  ~ values this _index == i ->
  values this _gestureState == State.ACTIVE ->
  values (after (Pager.frame integrate t
                   (Pager.receiveProps (withIndex i (props this)) this))) _index = i.
Proof.
  intros C P N X G.
  rewrite (receiveProps_withIndex i this C).
  set (s := setValue _nextIndex i _).
  destruct (frame_parts integrate t s) as [-> _].
  apply Qeq_bool_iff in G.
  replace (values s _gestureState) with (values this _gestureState) by reflexivity.
  rewrite G.
  rewrite (onIndexChange_fires (setNow t s) pv); [|exact P|exact N|exact X|reflexivity].
  cbn [after fst snd]. rewrite whileActive_run. cbn [after fst snd].
  unfold grabbed.
  match goal with |- context [if ?b then _ else _] => destruct b end; reflexivity.
Qed.

(** C6, as stated, fails: a resting pager of three routes at index 0
    whose host changes the index to 2 is, after the frame that handles the
    change, in the middle of an animation: the clock is running, the
    spring is aimed at -700 and [_position] is -350, neither where it was
    nor at the offset of the new index. *)
Lemma C6_outside_change_animates :
  running (_clock (fst (run glide [Frame 0; NewProps (propsAt 2 350); Frame 16]
                          (Pager.construct (propsAt 0 350))))) = true
  /\ values (fst (run glide [Frame 0; NewProps (propsAt 2 350); Frame 16]
                    (Pager.construct (propsAt 0 350)))) _index == 2
  /\ values (fst (run glide [Frame 0; NewProps (propsAt 2 350); Frame 16]
                    (Pager.construct (propsAt 0 350)))) config_toValue == -700
  /\ values (fst (run glide [Frame 0; NewProps (propsAt 2 350); Frame 16]
                    (Pager.construct (propsAt 0 350)))) _position == -350.
Proof.
  repeat split; by_evaluation.
Qed.

(** C6, amended.  When the host changes the index to [i] while the finger
    is off the screen and no swipe is to be resolved, the next frame stops
    the clock and sets [_index] to [i], and in the same frame starts the
    spring from the current position towards [-i * LayoutWidth]:
    [_position] is what the integrator answers for that step, and the
    clock runs on unless the integrator reports that it has finished. *)
Theorem C6_outside_change_starts_transition :
  forall (integrate : Animated.Integrator) (t : Q) (this : Pager) (i pv : Q),
    ~ i == index (navigationState (props this)) ->
    prevValue this = Some pv ->
    ~ i == pv ->
    ~ values this _index == i ->
    released this ->
    Qabs (values this _gestureX) <= swipeDistanceThreshold this ->
    Qabs (values this _velocityX) <= swipeVelocityThreshold ->
    values (after (Pager.frame integrate t
                     (Pager.receiveProps (withIndex i (props this)) this))) _index = i
    /\ values (after (Pager.frame integrate t
                        (Pager.receiveProps (withIndex i (props this)) this)))
         config_toValue
       = i * values this _layoutWidth * -1
    /\ values (after (Pager.frame integrate t
                        (Pager.receiveProps (withIndex i (props this)) this)))
         _position
       = Animated.at_position (firstSpringStep integrate t i this)
    /\ running (_clock (after (Pager.frame integrate t
                                 (Pager.receiveProps (withIndex i (props this)) this))))
       = negb (truthy (Animated.is_finished (firstSpringStep integrate t i this))).
Proof.
  intros integrate t this i pv C P N X R G V.
  apply (outside_change_released integrate t this i pv); try assumption.
  apply swipes_false; assumption.
Qed.

Lemma C6_outside_change_starts_transition_witness :
  values (after (Pager.frame glide 16
                   (Pager.receiveProps (withIndex 2 (props mounted)) mounted)))
    _index = 2.
Proof.
  apply (C6_outside_change_starts_transition glide 16 mounted 2 0); by_evaluation.
Defined.

Lemma mounted_reachable : reachable glide 3 mounted.
Proof.
  unfold mounted. apply reach_frame, reach_construct, propsAt_propsFor; lra.
Qed.

(** C9, amended.  The index that the host supplies is not clamped: with
    the finger off the screen and no swipe to resolve, [_index] is the
    supplied index after the next frame, whatever it is.  When the page
    set has [n] routes and every index that the host supplies lies in
    [[0, n - 1]], no frame fails: the commit at the end of a transition
    always finds its route. *)
Theorem C9_index_in_range_commits :
  (forall (integrate : Animated.Integrator) (n : nat) (this : Pager) (t : Q),
      reachable integrate n this ->
      Forall noTypeError (events (Pager.frame integrate t this)))
  /\ (forall (integrate : Animated.Integrator) (t : Q) (this : Pager) (i pv : Q),
        ~ i == index (navigationState (props this)) ->
        prevValue this = Some pv ->
        ~ i == pv ->
        ~ values this _index == i ->
        released this ->
        Qabs (values this _gestureX) <= swipeDistanceThreshold this ->
        Qabs (values this _velocityX) <= swipeVelocityThreshold ->
        values (after (Pager.frame integrate t
                         (Pager.receiveProps (withIndex i (props this)) this)))
          _index = i).
Proof.
  split.
  - intros integrate n this t R.
    apply (inRange_frame integrate n t this), (reachable_inRange integrate n this R).
  - intros integrate t this i pv C P N X R G V.
    apply (outside_change_released integrate t this i pv); try assumption.
    apply swipes_false; assumption.
Qed.

Lemma C9_index_in_range_commits_witness :
  Forall noTypeError (events (Pager.frame glide 16 mounted))
  /\ values (after (Pager.frame glide 16
                      (Pager.receiveProps (withIndex 5 (props mounted)) mounted)))
       _index = 5.
Proof.
  split.
  - apply (proj1 C9_index_in_range_commits glide 3%nat mounted 16 mounted_reachable).
  - apply (proj2 C9_index_in_range_commits glide 16 mounted 5 0); by_evaluation.
Defined.

(** ** An index that changes during a drag *)

(** The guard of [onIndexChange] does drop a change of [_nextIndex] that
    it sees while [_isSwipeGesture] is set. *)
Lemma onIndexChange_guarded (this : Pager) (pv : Q) :
  prevValue this = Some pv ->
  ~ values this _nextIndex == pv ->
  truthy (values this _isSwipeGesture) = true ->
  Pager.onIndexChange this
  = (NOOP, setPrevValue (values this _nextIndex) this, []).
Proof.
  intros P N G. rewrite onIndexChange_run, P.
  apply Qeq_bool_false in N. rewrite N, G, orb_true_r. reflexivity.
Qed.

(** [componentDidUpdate] clears [_isSwipeGesture] whenever it hands a new
    index to the graph, so that the guard never holds for a change that
    comes through the props. *)
Lemma componentDidUpdate_clears_flag (p : Props) (this : Pager) :
  ~ index (navigationState p) == index (navigationState (props this)) ->
  truthy (values (Pager.receiveProps p this) _isSwipeGesture) = false.
Proof.
  intro C. apply Qeq_bool_false in C.
  unfold Pager.receiveProps, Pager.componentDidUpdate.
  cbn [props setProps]. rewrite C. cbn [negb].
  destruct (negb (Nat.eqb _ _)); destruct (negb (Qeq_bool (width _) _)); reflexivity.
Qed.

(** C5 does not hold of the code.  While the finger is on the screen in a
    drag that the user started ([_isSwiping] and [_isSwipeGesture] set), a
    change of the outside index to [i] is not ignored: after the next
    frame [_index] is [i]. *)
Theorem C5_outside_change_overrides_drag :
  forall (integrate : Animated.Integrator) (t : Q) (this : Pager) (i pv : Q),
    values this _gestureState == State.ACTIVE ->
    truthy (values this _isSwiping) = true ->
    truthy (values this _isSwipeGesture) = true ->
    ~ i == index (navigationState (props this)) ->
    prevValue this = Some pv ->
    ~ i == pv ->
    ~ values this _index == i ->
    values (after (Pager.frame integrate t
                     (Pager.receiveProps (withIndex i (props this)) this)))
      _index = i.
Proof.
  intros integrate t this i pv G _ _ C P N X.
  apply (outside_change_active integrate t this i pv); assumption.
Qed.

Lemma C5_outside_change_overrides_drag_witness :
  values (after (Pager.frame snap 32
                   (Pager.receiveProps (withIndex 2 (props dragging)) dragging)))
    _index = 2
  /\ values (fst (run snap hostInterferes mounted)) _index == 2
  /\ snd (run snap hostInterferes mounted)
     = [EvDivide 350 1.75; EvDivide 350 1.75; EvDivide (-201) 201;
        EvDivide 350 1.75; EvDivide 350 1.75; EvDivide (-201) 201;
        EvJumpTo "third"].
Proof.
  split; [|split].
  - apply (C5_outside_change_overrides_drag snap 32 dragging 2 0); by_evaluation.
  - by_evaluation.
  - by_evaluation.
Defined.

(** ** One commit for a drag that settles *)

Lemma commitCount_app (l1 l2 : list Event) :
  commitCount (l1 ++ l2) = (commitCount l1 + commitCount l2)%nat.
Proof. unfold commitCount. rewrite filter_app, length_app. reflexivity. Qed.

Lemma commit_once (v : Q) (this : Pager) : commitCount (Pager.commit [v] this) = 1%nat.
Proof. unfold Pager.commit. destruct (array_get _ _); reflexivity. Qed.

Lemma releaseIndex_commitCount (this : Pager) :
  commitCount (events (Pager.releaseIndex this)) = 0%nat.
Proof.
  rewrite releaseIndex_run, swipeDirection_run.
  destruct (swipes this); [destruct (Qgtb _ _)|]; reflexivity.
Qed.

Lemma transitionTo_commits (integrate : Animated.Integrator) (this : Pager) :
  commitCount (events (Pager.transitionTo integrate Pager.releaseIndex this))
  = (if running (_clock (after (Pager.transitionTo integrate Pager.releaseIndex this)))
     then 0 else 1)%nat
  /\ prevValue (after (Pager.transitionTo integrate Pager.releaseIndex this))
     = prevValue this
  /\ values (after (Pager.transitionTo integrate Pager.releaseIndex this)) _nextIndex
     = values this _nextIndex
  /\ values (after (Pager.transitionTo integrate Pager.releaseIndex this)) _gestureState
     = values this _gestureState.
Proof.
  rewrite transitionTo_run.
  pose proof (releaseIndex_commitCount this) as Z.
  destruct (running (_clock this)) eqn:R;
    match goal with |- context [if truthy ?f then _ else _] => destruct (truthy f) end;
    cbn [after events fst snd]; cells;
    rewrite ?commitCount_app, ?commit_once, ?Z, ?R; repeat split; reflexivity.
Qed.

Lemma release_frame (integrate : Animated.Integrator) (t : Q) (this : Pager) :
  released this ->
  noPendingIndex this ->
  commitCount (events (Pager.frame integrate t this))
  = (if running (_clock (after (Pager.frame integrate t this))) then 0 else 1)%nat
  /\ released (after (Pager.frame integrate t this))
  /\ noPendingIndex (after (Pager.frame integrate t this)).
Proof.
  intros R P. destruct (frame_parts integrate t this) as [-> ->].
  pose proof R as R'. apply Qeq_bool_false in R'. rewrite R'.
  destruct (onIndexChange_quiet (setNow t this) P) as [-> ->].
  rewrite whenReleased_run. cbn [app prevValue setNow].
  match goal with |- context [Pager.transitionTo integrate _ ?s] =>
    destruct (transitionTo_commits integrate s) as (C & Pv & N & G)
  end.
  split; [exact C|]. unfold released, noPendingIndex in *.
  rewrite Pv, N, G. clear C Pv N G.
  destruct (prevValue this) as [p|] eqn:E; cells; rewrite ?E;
    (split; [exact R|]); [exact P | reflexivity].
Qed.

Lemma active_frame (integrate : Animated.Integrator) (t : Q) (this : Pager) :
  values this _gestureState == State.ACTIVE ->
  noPendingIndex this ->
  events (Pager.frame integrate t this) = []
  /\ noPendingIndex (after (Pager.frame integrate t this)).
Proof.
  intros G P. destruct (frame_parts integrate t this) as [-> ->].
  apply Qeq_bool_iff in G. rewrite G.
  destruct (onIndexChange_quiet (setNow t this) P) as [-> ->].
  rewrite whileActive_run. cbn [app events after fst snd prevValue setNow].
  split; [reflexivity|]. unfold noPendingIndex in *.
  destruct (prevValue this) as [p|] eqn:E; unfold grabbed;
    match goal with |- context [if ?b then _ else _] => destruct b end;
    cells; rewrite ?E; first [exact P | reflexivity].
Qed.

Lemma run_app (integrate : Animated.Integrator) (l1 l2 : list HostStep) (this : Pager) :
  run integrate (l1 ++ l2) this
  = (fst (run integrate l2 (fst (run integrate l1 this))),
     snd (run integrate l1 this) ++ snd (run integrate l2 (fst (run integrate l1 this)))).
Proof.
  revert this. induction l1 as [|s l1 IH]; intro this.
  - cbn [app run fst snd]. destruct (run integrate l2 this). reflexivity.
  - cbn [app run]. destruct (step integrate s this) as [this1 ev1].
    rewrite IH. destruct (run integrate l1 this1) as [this2 ev2].
    cbn [fst snd]. rewrite app_assoc. reflexivity.
Qed.

Lemma drag_no_commit (integrate : Animated.Integrator) (samples : list (Q * Q * Q))
    (this : Pager) :
  noPendingIndex this ->
  snd (run integrate (dragSteps samples) this) = []
  /\ noPendingIndex (fst (run integrate (dragSteps samples) this)).
Proof.
  revert this. induction samples as [|[[x v] t] samples IH]; intros this P.
  - split; [reflexivity | exact P].
  - cbn [dragSteps flat_map app run step].
    destruct (active_frame integrate t (Pager.handleGestureEvent x v State.ACTIVE this))
      as [E P']; [reflexivity | exact P |].
    destruct (IH _ P') as [E' P''].
    fold (dragSteps samples).
    destruct (run integrate (dragSteps samples) _) as [this2 ev2].
    cbn [fst snd] in *. rewrite E, E'. split; [reflexivity | exact P''].
Qed.

Lemma settle_commits_once (integrate : Animated.Integrator) (ts : list Q) (this : Pager) :
  released this ->
  noPendingIndex this ->
  settlesAfter integrate ts this ->
  commitCount (snd (run integrate (map Frame ts) this)) = 1%nat.
Proof.
  revert this. induction ts as [|t ts IH]; intros this R P S; [destruct S|].
  destruct (release_frame integrate t this R P) as (C & R' & P').
  cbn [map run step].
  destruct ts as [|t' ts'].
  - cbn [settlesAfter] in S. rewrite S in C.
    cbn [map run fst snd]. rewrite app_nil_r. exact C.
  - destruct S as [S1 S2]. rewrite S1 in C.
    specialize (IH _ R' P' S2).
    destruct (run integrate (map Frame (t' :: ts')) _) as [this2 ev2].
    cbn [snd] in *. rewrite commitCount_app, C, IH. reflexivity.
Qed.

(** A drag of any number of samples, followed by a release and the
    frames of the settling transition, commits exactly once, whoever
    integrates the spring and however many frames there are. *)
Lemma drag_then_settle_commits_once
    (integrate : Animated.Integrator) (samples : list (Q * Q * Q))
    (x v st : Q) (ts : list Q) (this : Pager) :
  noPendingIndex this ->
  ~ st == State.ACTIVE ->
  settlesAfter integrate ts
    (Pager.handleGestureEvent x v st (fst (run integrate (dragSteps samples) this))) ->
  commitCount
    (snd (run integrate (dragSteps samples ++ Gesture x v st :: map Frame ts) this))
  = 1%nat.
Proof.
  intros P R S. rewrite run_app. cbn [snd].
  destruct (drag_no_commit integrate samples this P) as [-> P'].
  cbn [app run step].
  pose proof (settle_commits_once integrate ts
                (Pager.handleGestureEvent x v st
                   (fst (run integrate (dragSteps samples) this))) R P' S) as C.
  destruct (run integrate (map Frame ts) _) as [this2 ev2].
  cbn [snd] in *. exact C.
Qed.

(** ** The index that comes back after a commit *)

(** C4 does not hold of the code.  Take a pager at rest (finger off the
    screen, clock stopped, nothing to resolve) whose [_index] is [i], as
    after the commit of a settled swipe, and let the host supply the index
    [i] in answer.  The next frame aims the spring at [-i * LayoutWidth]
    and starts the clock again; then either the clock is still running
    after the frame, or the integrator has finished at once and [jumpTo]
    has been called a second time with the key of the same route. *)
Theorem C4_resupplied_index_commits_again :
  forall (integrate : Animated.Integrator) (t : Q) (this : Pager) (i pv : Q)
         (route : Route),
    released this ->
    running (_clock this) = false ->
    Qabs (values this _gestureX) <= swipeDistanceThreshold this ->
    Qabs (values this _velocityX) <= swipeVelocityThreshold ->
    values this _index == i ->
    array_get (routes (navigationState (props this)))
      (Math_round (values this _index)) = Some route ->
    ~ i == index (navigationState (props this)) ->
    prevValue this = Some pv ->
    ~ i == pv ->
    values (after (Pager.frame integrate t
                     (Pager.receiveProps (withIndex i (props this)) this)))
      config_toValue
    = values this _index * values this _layoutWidth * -1
    /\ (running (_clock (after (Pager.frame integrate t
                                  (Pager.receiveProps (withIndex i (props this)) this))))
        = true
        \/ events (Pager.frame integrate t
                     (Pager.receiveProps (withIndex i (props this)) this))
           = [EvDivide (values this _layoutWidth) 1.75;
              EvDivide (values this _layoutWidth) 1.75;
              EvJumpTo (key route)]).
Proof.
  intros integrate t this i pv route R Run G V X Rt C P N.
  rewrite (receiveProps_withIndex i this C).
  set (s := setValue _nextIndex i _).
  destruct (frame_parts integrate t s) as [-> ->].
  apply Qeq_bool_false in R.
  replace (values s _gestureState) with (values this _gestureState) by reflexivity.
  rewrite R.
  rewrite (onIndexChange_same (setNow t s) pv); [|exact P|exact N|exact X].
  cbn [after events fst snd app].
  match goal with |- context [Pager.whenReleased integrate ?s1] =>
    destruct (whenReleased_starts integrate s1) as (_ & B & _ & E & Ev);
    [exact Run
    | rewrite <- (swipes_false this G V); apply swipes_reads; reflexivity |]
  end.
  split; [exact B|].
  rewrite E, Ev.
  match goal with |- context [truthy ?f] => destruct (truthy f) end;
    [right | left; reflexivity].
  unfold Pager.commit. subst s. cells. cbn [withIndex navigationState routes].
  rewrite Rt. reflexivity.
Qed.

Lemma C4_resupplied_index_commits_again_witness :
  jumpToCount (snd (run snap [Gesture (-201) 0 State.ACTIVE; Frame 16;
                              Gesture (-201) 0 State.END; Frame 32] mounted)) = 1%nat
  /\ values swipedToSecond _index == 1
  /\ events (Pager.frame snap 48
               (Pager.receiveProps (withIndex 1 (props swipedToSecond)) swipedToSecond))
     = [EvDivide 350 1.75; EvDivide 350 1.75; EvJumpTo "second"]
  /\ jumpToCount (snd (run snap hostFollowsCommit mounted)) = 2%nat.
Proof.
  split; [by_evaluation|]. split; [by_evaluation|]. split; [|by_evaluation].
  destruct (C4_resupplied_index_commits_again snap 48 swipedToSecond 1 0
              {| key := "second" |}
              ltac:(by_evaluation) ltac:(by_evaluation) ltac:(by_evaluation)
              ltac:(by_evaluation) ltac:(by_evaluation) ltac:(by_evaluation)
              ltac:(by_evaluation) ltac:(by_evaluation) ltac:(by_evaluation))
    as [_ [H|H]].
  - vm_compute in H. discriminate H.
  - exact H.
Defined.

(** * More of Pager.js *)

(** ** New props *)

(** X1. [componentDidUpdate] writes no cell but [_nextIndex],
    [_isSwipeGesture], [_routesLength] and [_layoutWidth], whatever the new
    props are: in particular [_position], [_index] and the drag offset are
    what they were, and so are the clock and what [onChange] remembers. *)
Theorem componentDidUpdate_writes_four_cells :
  forall (p : Props) (this : Pager),
    (forall c : Cell,
        c <> _nextIndex -> c <> _isSwipeGesture ->
        c <> _routesLength -> c <> _layoutWidth ->
        values (Pager.receiveProps p this) c = values this c)
    /\ _clock (Pager.receiveProps p this) = _clock this
    /\ prevValue (Pager.receiveProps p this) = prevValue this
    /\ props (Pager.receiveProps p this) = p.
Proof.
  intros p this. unfold Pager.receiveProps, Pager.componentDidUpdate.
  cbn [props setProps].
  destruct (negb (Qeq_bool (index _) (index _)));
    destruct (negb (Nat.eqb _ _));
    destruct (negb (Qeq_bool (width _) (width _)));
    (split; [|repeat split]);
    intros c H1 H2 H3 H4; destruct c; try reflexivity; congruence.
Qed.

Lemma receiveProps_width_only (p : Props) (this : Pager) :
  index (navigationState p) == index (navigationState (props this)) ->
  List.length (routes (navigationState p))
  = List.length (routes (navigationState (props this))) ->
  ~ width (layout p) == width (layout (props this)) ->
  Pager.receiveProps p this
  = setValue _layoutWidth (width (layout p)) (setProps p this).
Proof.
  intros I L W. unfold Pager.receiveProps, Pager.componentDidUpdate.
  cbn [props setProps].
  apply Qeq_bool_iff in I. rewrite I. rewrite L, Nat.eqb_refl.
  assert (W' : Qeq_bool (width (layout (props this))) (width (layout p)) = false).
  { apply Qeq_bool_false. intro E. apply W. rewrite E. reflexivity. }
  rewrite W'. reflexivity.
Qed.

(** X2. A new layout width while the pager is at rest is not applied to
    [_position] at once: the next frame keeps [_index], aims the spring at
    [-_index * width] for the new width and starts the clock; [_position]
    is what the integrator answers for that first step. *)
Theorem layout_change_starts_transition :
  forall (integrate : Animated.Integrator) (t : Q) (p : Props) (this : Pager),
    index (navigationState p) == index (navigationState (props this)) ->
    List.length (routes (navigationState p))
    = List.length (routes (navigationState (props this))) ->
    ~ width (layout p) == width (layout (props this)) ->
    released this ->
    noPendingIndex this ->
    running (_clock this) = false ->
    Qabs (values this _gestureX) <= width (layout p) / 1.75 ->
    Qabs (values this _velocityX) <= swipeVelocityThreshold ->
    values (Pager.receiveProps p this) _position = values this _position
    /\ values (after (Pager.frame integrate t (Pager.receiveProps p this))) _index
       = values this _index
    /\ values (after (Pager.frame integrate t (Pager.receiveProps p this)))
         config_toValue
       = values this _index * width (layout p) * -1
    /\ values (after (Pager.frame integrate t (Pager.receiveProps p this))) _position
       = Animated.at_position
           (firstSpringStep integrate t (values this _index)
              (Pager.receiveProps p this))
    /\ running (_clock (after (Pager.frame integrate t (Pager.receiveProps p this))))
       = negb (truthy (Animated.is_finished
                         (firstSpringStep integrate t (values this _index)
                            (Pager.receiveProps p this)))).
Proof.
  intros integrate t p this I L W R P Run G V.
  rewrite (receiveProps_width_only p this I L W).
  set (s := setValue _layoutWidth _ _).
  split; [reflexivity|].
  destruct (frame_parts integrate t s) as [-> _].
  apply Qeq_bool_false in R.
  replace (values s _gestureState) with (values this _gestureState) by reflexivity.
  rewrite R.
  assert (P' : noPendingIndex (setNow t s)) by exact P.
  destruct (onIndexChange_quiet (setNow t s) P') as [-> _].
  assert (S : swipes s = false) by (apply swipes_false; assumption).
  cbn [prevValue setNow setValue setProps s].
  destruct (prevValue this) as [pv|];
    match goal with |- context [Pager.whenReleased integrate ?s1] =>
      destruct (whenReleased_starts integrate s1) as (A & B & D & E & _);
      [exact Run | rewrite <- S; apply swipes_reads; reflexivity |]
    end;
    repeat split; first [exact A | exact B | exact D | exact E].
Qed.

Lemma layout_change_starts_transition_witness :
  values (after (Pager.frame glide 16 (Pager.receiveProps (propsAt 0 400) mounted)))
    config_toValue
  = values mounted _index * 400 * -1.
Proof.
  apply (layout_change_starts_transition glide 16 (propsAt 0 400) mounted);
    by_evaluation.
Defined.

Lemma receiveProps_routes_only (p : Props) (this : Pager) :
  index (navigationState p) == index (navigationState (props this)) ->
  List.length (routes (navigationState p))
  <> List.length (routes (navigationState (props this))) ->
  width (layout p) == width (layout (props this)) ->
  Pager.receiveProps p this
  = setValue _routesLength
      (inject_Z (Z.of_nat (List.length (routes (navigationState p)))))
      (setProps p this).
Proof.
  intros I L W. unfold Pager.receiveProps, Pager.componentDidUpdate.
  cbn [props setProps].
  apply Qeq_bool_iff in I. rewrite I.
  assert (L' : Nat.eqb (List.length (routes (navigationState (props this))))
                       (List.length (routes (navigationState p))) = false)
    by (apply Nat.eqb_neq; congruence).
  rewrite L'.
  assert (W' : Qeq_bool (width (layout (props this))) (width (layout p)) = true)
    by (apply Qeq_bool_iff; rewrite W; reflexivity).
  rewrite W'. reflexivity.
Qed.

(** X3. When the number of routes changes and the index does not,
    [componentDidUpdate] records the new number and leaves [_index] as it
    is, even beyond the new last route; the next release that qualifies
    as a swipe resolves to an index of the new page set. *)
Theorem routes_change_bounds_next_swipe :
  forall (p : Props) (this : Pager),
    index (navigationState p) == index (navigationState (props this)) ->
    List.length (routes (navigationState p))
    <> List.length (routes (navigationState (props this))) ->
    width (layout p) == width (layout (props this)) ->
    (1 <= List.length (routes (navigationState p)))%nat ->
    values (Pager.receiveProps p this) _index = values this _index
    /\ values (Pager.receiveProps p this) _routesLength
       = inject_Z (Z.of_nat (List.length (routes (navigationState p))))
    /\ (swipeDistanceThreshold this < Qabs (values this _gestureX)
        \/ swipeVelocityThreshold < Qabs (values this _velocityX) ->
        0 <= result (Pager.releaseIndex (Pager.receiveProps p this))
          <= inject_Z (Z.of_nat (List.length (routes (navigationState p)))) - 1).
Proof.
  intros p this I L W N.
  rewrite (receiveProps_routes_only p this I L W).
  split; [reflexivity|]. split; [reflexivity|].
  intro S. apply swipes_true in S.
  rewrite (releaseIndex_swipe _ (Z.of_nat (List.length (routes (navigationState p)))));
    [|reflexivity|rewrite <- S; apply swipes_reads; reflexivity].
  match goal with |- context [clamp 0 ?m ?z] =>
    pose proof (clamp_range m z ltac:(lia)) as [Lo Hi]
  end.
  rewrite Zle_Qle in Lo, Hi. change (inject_Z 0) with 0 in Lo.
  rewrite inject_Z_pred in Hi. split; assumption.
Qed.

Lemma routes_change_bounds_next_swipe_witness :
  values (Pager.receiveProps
            {| swipeEnabled := true;
               navigationState := {| index := 2; routes := [ {| key := "first" |} ] |};
               layout := {| width := 350; height := 600 |} |}
            (pagerWith 2 (-201) 0)) _index = 2
  /\ 0 <= result (Pager.releaseIndex
                    (Pager.receiveProps
                       {| swipeEnabled := true;
                          navigationState :=
                            {| index := 2; routes := [ {| key := "first" |} ] |};
                          layout := {| width := 350; height := 600 |} |}
                       (pagerWith 2 (-201) 0))) <= 0.
Proof.
  destruct (routes_change_bounds_next_swipe
              {| swipeEnabled := true;
                 navigationState := {| index := 2; routes := [ {| key := "first" |} ] |};
                 layout := {| width := 350; height := 600 |} |}
              (pagerWith 2 (-201) 0)) as (A & _ & B).
  - by_evaluation.
  - cbn. lia.
  - by_evaluation.
  - cbn. lia.
  - split; [exact A|]. apply B. left. by_evaluation.
Defined.

(** ** Dragging *)

Lemma onIndexChange_events (this : Pager) : events (Pager.onIndexChange this) = [].
Proof.
  rewrite onIndexChange_run.
  destruct (prevValue this); [|reflexivity].
  destruct (Qeq_bool _ _); [reflexivity|].
  destruct (_ || _); reflexivity.
Qed.

(** One frame with the finger on the screen. *)
Lemma active_frame_cells (integrate : Animated.Integrator) (t : Q) (this : Pager) :
  values this _gestureState == State.ACTIVE ->
  values (after (Pager.frame integrate t this)) _offsetX
  = (if truthy (values this _isSwiping)
     then values this _offsetX else values this _position)
  /\ values (after (Pager.frame integrate t this)) _position
     = (if truthy (values this _isSwiping)
        then values this _offsetX else values this _position)
       + values this _gestureX
  /\ truthy (values (after (Pager.frame integrate t this)) _isSwiping) = true
  /\ running (_clock (after (Pager.frame integrate t this))) = false
  /\ events (Pager.frame integrate t this) = [].
Proof.
  intro G. destruct (frame_parts integrate t this) as [-> ->].
  apply Qeq_bool_iff in G. rewrite G.
  rewrite onIndexChange_events, whileActive_run. cbn [after events fst snd app].
  pose proof (onIndexChange_reads (setNow t this)) as Rd.
  set (s1 := after (Pager.onIndexChange (setNow t this))) in *.
  assert (A : values s1 _isSwiping = values this _isSwiping)
    by (apply Rd; discriminate).
  assert (B : values s1 _offsetX = values this _offsetX)
    by (apply Rd; discriminate).
  assert (C : values s1 _position = values this _position)
    by (apply Rd; discriminate).
  assert (D : values s1 _gestureX = values this _gestureX)
    by (apply Rd; discriminate).
  unfold grabbed. rewrite A.
  destruct (truthy (values this _isSwiping)) eqn:Sw; cells;
    rewrite ?A, ?B, ?C, ?D, ?Sw; repeat split; reflexivity.
Qed.

(** The point at which the page was grabbed, for a pager that is being
    dragged or is about to be. *)
Lemma drag_keeps_grab_point
    (integrate : Animated.Integrator) (samples : list (Q * Q * Q)) (this : Pager) :
  (if truthy (values (fst (run integrate (dragSteps samples) this)) _isSwiping)
   then values (fst (run integrate (dragSteps samples) this)) _offsetX
   else values (fst (run integrate (dragSteps samples) this)) _position)
  = (if truthy (values this _isSwiping)
     then values this _offsetX else values this _position)
  /\ snd (run integrate (dragSteps samples) this) = [].
Proof.
  revert this.
  induction samples as [|[[x v] t] samples IH]; intro this; [split; reflexivity|].
  cbn [dragSteps flat_map app run step]. fold (dragSteps samples).
  destruct (active_frame_cells integrate t
              (Pager.handleGestureEvent x v State.ACTIVE this))
    as (O & _ & Sw & _ & Ev); [reflexivity|].
  specialize (IH (after (Pager.frame integrate t
                           (Pager.handleGestureEvent x v State.ACTIVE this)))).
  destruct (run integrate (dragSteps samples) _) as [s2 ev2].
  cbn [fst snd] in *. destruct IH as [IH ->]. rewrite Ev. split; [|reflexivity].
  rewrite IH, Sw, O. reflexivity.
Qed.

(** X4. During a drag the page follows the finger from the point where
    it was grabbed: after any number of gesture samples in the active
    state, each followed by a frame, [_position] is the position at the
    start of the drag plus the translation of the last sample; the clock
    is stopped, and no frame of the drag commits or divides. *)
Theorem drag_follows_finger :
  forall (integrate : Animated.Integrator) (samples : list (Q * Q * Q))
         (x v t : Q) (this : Pager),
    truthy (values this _isSwiping) = false ->
    values (fst (run integrate (dragSteps (samples ++ [(x, v, t)])) this)) _position
    = values this _position + x
    /\ running (_clock (fst (run integrate (dragSteps (samples ++ [(x, v, t)])) this)))
       = false
    /\ snd (run integrate (dragSteps (samples ++ [(x, v, t)])) this) = [].
Proof.
  intros integrate samples x v t this Sw.
  unfold dragSteps. rewrite flat_map_app. fold (dragSteps samples).
  rewrite run_app. cbn [fst snd flat_map app run step].
  destruct (drag_keeps_grab_point integrate samples this) as [Gp ->].
  rewrite Sw in Gp.
  destruct (active_frame_cells integrate t
              (Pager.handleGestureEvent x v State.ACTIVE
                 (fst (run integrate (dragSteps samples) this))))
    as (_ & Po & _ & Ru & Ev); [reflexivity|].
  cbn [Pager.handleGestureEvent values setValue update Cell_eqb] in Po.
  rewrite Gp in Po.
  rewrite app_nil_r. cbn [app]. rewrite Ev. repeat split; assumption.
Qed.

Lemma drag_follows_finger_witness :
  values (fst (run glide (dragSteps ([(-10, 0, 16); (-60, 0, 32)] ++ [(-100, 0, 48)]))
                 mounted)) _position
  = values mounted _position + -100.
Proof.
  apply (drag_follows_finger glide [(-10, 0, 16); (-60, 0, 32)] (-100) 0 48 mounted).
  reflexivity.
Defined.

Lemma transitionTo_keeps_isSwiping (integrate : Animated.Integrator) (this : Pager) :
  values (after (Pager.transitionTo integrate Pager.releaseIndex this)) _isSwiping
  = values this _isSwiping.
Proof.
  rewrite transitionTo_run.
  destruct (running (_clock this));
    match goal with |- context [if truthy ?f then _ else _] => destruct (truthy f) end;
    reflexivity.
Qed.

Lemma release_frame_not_swiping (integrate : Animated.Integrator) (t : Q) (this : Pager) :
  released this ->
  truthy (values (after (Pager.frame integrate t this)) _isSwiping) = false.
Proof.
  intro R. destruct (frame_parts integrate t this) as [-> _].
  apply Qeq_bool_false in R. rewrite R.
  rewrite whenReleased_run, transitionTo_keeps_isSwiping. reflexivity.
Qed.

(** X5. A touch takes a moving page over where it is.  After any frame
    with the finger off the screen (the spring may be running), the first
    frame of a new drag puts [_position] at the position the page had plus
    the translation of the gesture, stops the clock, and commits nothing. *)
Theorem touch_takes_over :
  forall (integrate : Animated.Integrator) (t t' x v : Q) (this : Pager),
    released this ->
    values (after (Pager.frame integrate t'
                     (Pager.handleGestureEvent x v State.ACTIVE
                        (after (Pager.frame integrate t this))))) _position
    = values (after (Pager.frame integrate t this)) _position + x
    /\ running (_clock (after (Pager.frame integrate t'
                                 (Pager.handleGestureEvent x v State.ACTIVE
                                    (after (Pager.frame integrate t this))))))
       = false
    /\ events (Pager.frame integrate t'
                 (Pager.handleGestureEvent x v State.ACTIVE
                    (after (Pager.frame integrate t this)))) = [].
Proof.
  intros integrate t t' x v this R.
  pose proof (release_frame_not_swiping integrate t this R) as Sw.
  destruct (active_frame_cells integrate t'
              (Pager.handleGestureEvent x v State.ACTIVE
                 (after (Pager.frame integrate t this))))
    as (_ & Po & _ & Ru & Ev); [reflexivity|].
  cbn [Pager.handleGestureEvent values setValue update Cell_eqb] in Po.
  rewrite Sw in Po. repeat split; assumption.
Qed.

Lemma touch_takes_over_witness :
  values (after (Pager.frame glide 32
                   (Pager.handleGestureEvent 40 0 State.ACTIVE
                      (after (Pager.frame glide 16
                                (Pager.receiveProps (propsAt 2 350) mounted))))))
    _position
  = values (after (Pager.frame glide 16
                     (Pager.receiveProps (propsAt 2 350) mounted))) _position + 40.
Proof.
  apply (touch_takes_over glide 16 32 40 0 (Pager.receiveProps (propsAt 2 350) mounted)).
  by_evaluation.
Defined.

(** ** A transition in flight *)

(** X6. While the clock is running, a frame with the finger off the
    screen and no outside change of the index does not look at the
    gesture again: the next-index expression is not evaluated (the frame
    divides nothing), and [_index] and the target of the spring are what
    they were. *)
Theorem running_transition_keeps_target :
  forall (integrate : Animated.Integrator) (t : Q) (this : Pager),
    released this ->
    noPendingIndex this ->
    running (_clock this) = true ->
    values (after (Pager.frame integrate t this)) _index = values this _index
    /\ values (after (Pager.frame integrate t this)) config_toValue
       = values this config_toValue
    /\ Forall (fun e => isCommit e = true) (events (Pager.frame integrate t this)).
Proof.
  intros integrate t this R P Run.
  destruct (frame_parts integrate t this) as [-> ->].
  apply Qeq_bool_false in R. rewrite R.
  assert (P' : noPendingIndex (setNow t this)) by exact P.
  destruct (onIndexChange_quiet (setNow t this) P') as [-> ->].
  rewrite whenReleased_run, transitionTo_run. cbn [app prevValue setNow].
  destruct (prevValue this); cells; rewrite Run;
    match goal with |- context [if truthy ?f then _ else _] => destruct (truthy f) end;
    cbn [after events fst snd app]; cells;
    (split; [reflexivity|]); (split; [reflexivity|]);
    unfold Pager.commit; try destruct (array_get _ _); repeat constructor.
Qed.

Lemma running_transition_keeps_target_witness :
  values (after (Pager.frame glide 32
                   (after (Pager.frame glide 16
                             (Pager.receiveProps (propsAt 2 350) mounted))))) _index
  = values (after (Pager.frame glide 16
                     (Pager.receiveProps (propsAt 2 350) mounted))) _index.
Proof.
  apply (running_transition_keeps_target glide 32
           (after (Pager.frame glide 16 (Pager.receiveProps (propsAt 2 350) mounted))));
    by_evaluation.
Defined.

Lemma transitionTo_stops (integrate : Animated.Integrator) (this : Pager) :
  running (_clock (after (Pager.transitionTo integrate Pager.releaseIndex this))) = false ->
  values (after (Pager.transitionTo integrate Pager.releaseIndex this)) _gestureX = 0
  /\ values (after (Pager.transitionTo integrate Pager.releaseIndex this)) _velocityX = 0
  /\ values (after (Pager.transitionTo integrate Pager.releaseIndex this)) _layoutWidth
     = values this _layoutWidth.
Proof.
  rewrite transitionTo_run.
  destruct (running (_clock this)) eqn:Run;
    match goal with |- context [if truthy ?f then _ else _] => destruct (truthy f) end;
    cbn [after fst snd]; cells; rewrite ?Run; intro H;
    first [discriminate H | repeat split; reflexivity].
Qed.

(** X7. The frame that ends a transition (the clock is stopped after it)
    calls the commit callback once and resets [_gestureX] and [_velocityX]
    to 0, so that with a layout width that is not negative the pager that
    it leaves does not qualify as a swipe again. *)
Theorem settled_frame_resets_gesture :
  forall (integrate : Animated.Integrator) (t : Q) (this : Pager),
    released this ->
    noPendingIndex this ->
    running (_clock (after (Pager.frame integrate t this))) = false ->
    commitCount (events (Pager.frame integrate t this)) = 1%nat
    /\ values (after (Pager.frame integrate t this)) _gestureX = 0
    /\ values (after (Pager.frame integrate t this)) _velocityX = 0
    /\ (0 <= values this _layoutWidth ->
        swipes (after (Pager.frame integrate t this)) = false).
Proof.
  intros integrate t this R P Stop.
  destruct (release_frame integrate t this R P) as (C & _ & _).
  rewrite Stop in C. split; [exact C|].
  destruct (frame_parts integrate t this) as [E _]. rewrite E in Stop |- *.
  apply Qeq_bool_false in R. rewrite R in Stop |- *.
  rewrite whenReleased_run in Stop |- *.
  destruct (transitionTo_stops integrate _ Stop) as (G & V & W).
  split; [exact G|]. split; [exact V|].
  intro Wn. apply swipes_false.
  - rewrite G. pose proof (threshold_nonneg this Wn) as T.
    unfold swipeDistanceThreshold in *. rewrite W.
    assert (Wc : values (setValue _isSwiping FALSE
                           (after (Pager.onIndexChange (setNow t this)))) _layoutWidth
                 = values this _layoutWidth)
      by (cbn [values setValue update Cell_eqb];
          rewrite onIndexChange_reads by discriminate; reflexivity).
    rewrite Wc. cbn [Qabs Z.abs Qnum Qden]. exact T.
  - rewrite V. unfold swipeVelocityThreshold. cbn. lra.
Qed.

Lemma settled_frame_resets_gesture_witness :
  commitCount (events (Pager.frame snap 32
                         (Pager.handleGestureEvent (-201) 0 State.END dragging)))
  = 1%nat
  /\ values (after (Pager.frame snap 32
                      (Pager.handleGestureEvent (-201) 0 State.END dragging)))
       _gestureX = 0.
Proof.
  destruct (settled_frame_resets_gesture snap 32
              (Pager.handleGestureEvent (-201) 0 State.END dragging))
    as (C & G & _); try by_evaluation.
  split; [exact C | exact G].
Defined.

Lemma transitionTo_from_rest (integrate : Animated.Integrator) (this : Pager) :
  running (_clock this) = false ->
  values (after (Pager.transitionTo integrate Pager.releaseIndex this)) _index
  = result (Pager.releaseIndex this).
Proof.
  intro Run. rewrite transitionTo_run, Run.
  match goal with |- context [if truthy ?f then _ else _] => destruct (truthy f) end;
    reflexivity.
Qed.

(** X8. The velocity that decides a swipe is read from the cell that the
    spring writes as well.  When the host changes the index to [i] while
    that cell is above the velocity threshold in magnitude (and the
    distance is not above its own), the frame that takes the new index
    resolves a swipe from it: [_index] becomes
    round(i - sign(velocityX)) clamped into the range of the routes, not
    [i]. *)
Theorem outside_change_with_velocity :
  forall (integrate : Animated.Integrator) (t : Q) (this : Pager) (i pv : Q) (n : Z),
    ~ i == index (navigationState (props this)) ->
    prevValue this = Some pv ->
    ~ i == pv ->
    ~ values this _index == i ->
    released this ->
    values this _routesLength == inject_Z n ->
    Qabs (values this _gestureX) <= swipeDistanceThreshold this ->
    swipeVelocityThreshold < Qabs (values this _velocityX) ->
    values (after (Pager.frame integrate t
                     (Pager.receiveProps (withIndex i (props this)) this))) _index
    = inject_Z (clamp 0 (n - 1) (Math_round (i - Qsign (values this _velocityX)))).
Proof.
  intros integrate t this i pv n C P N X R Rl G V.
  rewrite (receiveProps_withIndex i this C).
  set (s := setValue _nextIndex i _).
  destruct (frame_parts integrate t s) as [-> _].
  apply Qeq_bool_false in R.
  replace (values s _gestureState) with (values this _gestureState) by reflexivity.
  rewrite R.
  rewrite (onIndexChange_fires (setNow t s) pv); [|exact P|exact N|exact X|reflexivity].
  cbn [after fst snd].
  rewrite whenReleased_run, transitionTo_from_rest by reflexivity.
  match goal with |- result (Pager.releaseIndex ?s1) = _ =>
    rewrite (releaseIndex_swipe s1 n);
      [ f_equal; f_equal; apply Math_round_comp;
        rewrite (swipeDirection_by_velocity s1); [reflexivity | exact G | exact V]
      | exact Rl
      | apply swipes_true; right; exact V ]
  end.
Qed.

Lemma outside_change_with_velocity_witness :
  values (after (Pager.frame glide 16
                   (Pager.receiveProps
                      (withIndex 2 (props (Pager.handleGestureEvent 0 1300 State.END
                                             mounted)))
                      (Pager.handleGestureEvent 0 1300 State.END mounted)))) _index
  = 1.
Proof.
  apply (outside_change_with_velocity glide 16
           (Pager.handleGestureEvent 0 1300 State.END mounted) 2 0 3);
    by_evaluation.
Defined.

(** ** What [render] gives out *)

Lemma position_run (integrate : Animated.Integrator) (t : Q) (this : Pager) :
  PagerView.position integrate (setNow t this)
  = (Qabs (result (Pager.frame integrate t this)) / width (layout (props this)),
     after (Pager.frame integrate t this),
     events (Pager.frame integrate t this)
     ++ [EvDivide (Qabs (result (Pager.frame integrate t this)))
                  (width (layout (props this)))]).
Proof.
  unfold PagerView.position, Pager.frame, Animated.divide, Animated.abs, Animated.num,
    bind, ret.
  destruct (Pager.render_translateX integrate (setNow t this)) as [[x s] ev].
  cbn [result after events fst snd props setNow]. rewrite !app_nil_r. reflexivity.
Qed.



(** X10. With a layout width of 0 the gesture handler is disabled and the
    view gets no translation, but the [position] node, once evaluated,
    divides by that width: its value is not defined. *)
Theorem zero_width_render :
  forall (integrate : Animated.Integrator) (t : Q) (this : Pager),
    width (layout (props this)) == 0 ->
    PagerView.enabled this = false
    /\ PagerView.containerWidth this = None
    /\ ~ Forall divisionDefined (events (PagerView.position integrate (setNow t this))).
Proof.
  intros integrate t this W. split; [|split].
  - unfold PagerView.enabled. apply Qeq_bool_iff in W. rewrite W. reflexivity.
  - unfold PagerView.containerWidth.
    rewrite (proj2 (truthy_false _) W). reflexivity.
  - rewrite position_run. cbn [events snd]. intro F.
    apply Forall_app in F. destruct F as [_ F].
    inversion F as [|e l D _]. subst. apply D. exact W.
Qed.

Lemma zero_width_render_witness :
  PagerView.enabled (Pager.construct (propsAt 1 0)) = false
  /\ PagerView.containerWidth (Pager.construct (propsAt 1 0)) = None.
Proof.
  destruct (zero_width_render glide 0 (Pager.construct (propsAt 1 0))) as (A & B & _).
  - reflexivity.
  - split; [exact A | exact B].
Defined.

(** * TabBar.js *)

(** Case analysis on every [Qmax] and [Qmin]. *)
Ltac minmax :=
  repeat match goal with
    | |- context [Qmax ?a ?b] =>
        let m := fresh "m" in
        let H := fresh in
        pose proof (Q.max_spec a b) as H;
        set (m := Qmax a b) in *; clearbody m;
        destruct H as [[? ?]|[? ?]]
    | |- context [Qmin ?a ?b] =>
        let m := fresh "m" in
        let H := fresh in
        pose proof (Q.min_spec a b) as H;
        set (m := Qmin a b) in *; clearbody m;
        destruct H as [[? ?]|[? ?]]
    | H0 : context [Qmax ?a ?b] |- _ =>
        let m := fresh "m" in
        let H := fresh in
        pose proof (Q.max_spec a b) as H;
        set (m := Qmax a b) in *; clearbody m;
        destruct H as [[? ?]|[? ?]]
    | H0 : context [Qmin ?a ?b] |- _ =>
        let m := fresh "m" in
        let H := fresh in
        pose proof (Q.min_spec a b) as H;
        set (m := Qmin a b) in *; clearbody m;
        destruct H as [[? ?]|[? ?]]
    end.

Lemma normalizeScrollValue_twice
    (parseFloat : string -> option Q) (p : TabBar.Props) (value : Q) :
  TabBar._normalizeScrollValue parseFloat p
    (TabBar._normalizeScrollValue parseFloat p value)
  == TabBar._normalizeScrollValue parseFloat p value.
Proof.
  unfold TabBar._normalizeScrollValue. cbv zeta.
  set (w := width (TabBar.layout p)).
  set (full := TabBar._getTabWidth parseFloat p * TabBar.numberOfRoutes p).
  minmax; lra.
Qed.

(** X11. [_normalizeScrollValue] brings any value into the range of the
    scroll view, from 0 to the width of the tabs beyond the layout (which
    is never negative), and applying it twice is applying it once. *)
Theorem normalizeScrollValue_range :
  forall (parseFloat : string -> option Q) (p : TabBar.Props) (value : Q),
    0 <= maxDistance parseFloat p
    /\ 0 <= TabBar._normalizeScrollValue parseFloat p value <= maxDistance parseFloat p
    /\ TabBar._normalizeScrollValue parseFloat p
         (TabBar._normalizeScrollValue parseFloat p value)
       == TabBar._normalizeScrollValue parseFloat p value
    /\ (0 <= value <= maxDistance parseFloat p ->
        TabBar._normalizeScrollValue parseFloat p value == value).
Proof.
  intros parseFloat p value. unfold maxDistance, TabBar._normalizeScrollValue.
  cbv zeta.
  set (w := width (TabBar.layout p)).
  set (full := TabBar._getTabWidth parseFloat p * TabBar.numberOfRoutes p).
  split; [minmax; lra|]. split; [split; minmax; lra|].
  split; [|intros [? ?]; minmax; lra].
  apply (normalizeScrollValue_twice parseFloat p value).
Qed.

Lemma normalizeScrollValue_range_witness :
  TabBar._normalizeScrollValue sampleParseFloat (tabBarProps 1 350 true None) 500 <= 70
  /\ TabBar._normalizeScrollValue sampleParseFloat (tabBarProps 1 350 true None) 40 == 40.
Proof.
  destruct (normalizeScrollValue_range sampleParseFloat (tabBarProps 1 350 true None) 500)
    as (_ & [_ A] & _).
  destruct (normalizeScrollValue_range sampleParseFloat (tabBarProps 1 350 true None) 40)
    as (_ & _ & _ & B).
  split.
  - apply (Qle_trans _ _ _ A). by_evaluation.
  - apply B. split; by_evaluation.
Defined.

(** X12. The scroll amount for a tab is already normalised, so the second
    normalisation in [_adjustScroll] changes nothing: with scrolling
    enabled and the scroll view attached, [_adjustScroll] scrolls once, to
    the scroll amount of the tab, without animation if it is the first
    call and with animation in every call after it. *)
Theorem adjustScroll_scrolls_to_amount :
  forall (parseFloat : string -> option Q) (value value' : Q) (this : TabBar.Instance),
    TabBar.scrollEnabled (TabBar.props this) = true ->
    TabBar._scrollView this = true ->
    exists x x' : Q,
      snd (TabBar._adjustScroll parseFloat value this)
      = [TabBar.ScrollTo x (negb (TabBar._isIntial this))]
      /\ x == TabBar._getScrollAmount parseFloat (TabBar.props this) value
      /\ snd (TabBar._adjustScroll parseFloat value'
                (fst (TabBar._adjustScroll parseFloat value this)))
         = [TabBar.ScrollTo x' true]
      /\ x' == TabBar._getScrollAmount parseFloat (TabBar.props this) value'.
Proof.
  intros parseFloat value value' this S V.
  assert (K : forall v (s : TabBar.Instance),
             TabBar.scrollEnabled (TabBar.props s) = true ->
             TabBar._scrollView s = true ->
             snd (TabBar._adjustScroll parseFloat v s)
             = [TabBar.ScrollTo
                  (TabBar._normalizeScrollValue parseFloat (TabBar.props s)
                     (TabBar._getScrollAmount parseFloat (TabBar.props s) v))
                  (negb (TabBar._isIntial s))]
             /\ TabBar.props (fst (TabBar._adjustScroll parseFloat v s)) = TabBar.props s
             /\ TabBar._scrollView (fst (TabBar._adjustScroll parseFloat v s)) = true
             /\ TabBar._isIntial (fst (TabBar._adjustScroll parseFloat v s)) = false).
  { intros v s Ss Vs. unfold TabBar._adjustScroll. rewrite Ss.
    destruct (TabBar._scrollResetCallback s);
      cbn [TabBar.cancelAnimationFrame TabBar.setFrames TabBar.setFlags TabBar._scrollView
           TabBar.props TabBar._isIntial fst snd];
      rewrite Vs; repeat split; reflexivity. }
  destruct (K value this S V) as (E1 & P1 & V1 & I1).
  pose proof (K value' _ (eq_trans (f_equal TabBar.scrollEnabled P1) S) V1) as (E2 & _).
  rewrite I1, P1 in E2.
  eexists. eexists. split; [exact E1|]. split; [|split; [exact E2|]];
    unfold TabBar._getScrollAmount; cbv zeta;
    apply normalizeScrollValue_twice.
Qed.

Lemma adjustScroll_scrolls_to_amount_witness :
  exists x x' : Q,
    snd (TabBar._adjustScroll sampleParseFloat 2
           (TabBar.setScrollView true
              (TabBar.constructor sampleParseFloat (tabBarProps 0 350 true None))))
    = [TabBar.ScrollTo x false]
    /\ x == 70
    /\ snd (TabBar._adjustScroll sampleParseFloat 1
              (fst (TabBar._adjustScroll sampleParseFloat 2
                      (TabBar.setScrollView true
                         (TabBar.constructor sampleParseFloat
                            (tabBarProps 0 350 true None))))))
       = [TabBar.ScrollTo x' true]
    /\ x' == 35.
Proof.
  destruct (adjustScroll_scrolls_to_amount sampleParseFloat 2 1
              (TabBar.setScrollView true
                 (TabBar.constructor sampleParseFloat (tabBarProps 0 350 true None)))
              eq_refl eq_refl) as (x & x' & A & B & C & D).
  exists x, x'. split; [exact A|]. split; [rewrite B; by_evaluation|].
  split; [exact C|]. rewrite D. by_evaluation.
Defined.



(** X14. With a tab width that is not negative, the scroll amount does
    not decrease from a tab to a later one. *)
Theorem scrollAmount_monotone :
  forall (parseFloat : string -> option Q) (p : TabBar.Props) (i j : Q),
    0 <= TabBar._getTabWidth parseFloat p ->
    i <= j ->
    TabBar._getScrollAmount parseFloat p i <= TabBar._getScrollAmount parseFloat p j.
Proof.
  intros parseFloat p i j T L.
  unfold TabBar._getScrollAmount, TabBar._normalizeScrollValue. cbv zeta.
  set (w := width (TabBar.layout p)) in *.
  set (tw := TabBar._getTabWidth parseFloat p) in *.
  set (full := tw * TabBar.numberOfRoutes p).
  assert (V : tw * (i + 1 / 2) - w / 2 <= tw * (j + 1 / 2) - w / 2) by nra.
  set (vi := tw * (i + 1 / 2) - w / 2) in *.
  set (vj := tw * (j + 1 / 2) - w / 2) in *.
  clearbody vi vj full tw w. minmax; lra.
Qed.

Lemma scrollAmount_monotone_witness :
  TabBar._getScrollAmount sampleParseFloat (tabBarProps 0 350 true None) 1
  <= TabBar._getScrollAmount sampleParseFloat (tabBarProps 0 350 true None) 2.
Proof.
  apply (scrollAmount_monotone sampleParseFloat (tabBarProps 0 350 true None) 1 2);
    by_evaluation.
Defined.



(** ** Scroll resets and animation frames *)

Lemma resetScroll_queue (value : Q) (animated : bool) (this : TabBar.Instance) :
  TabBar.scrollEnabled (TabBar.props this) = true ->
  (TabBar.frameCallbacks this = []
   \/ exists id c,
        TabBar.frameCallbacks this = [(id, c)]
        /\ TabBar._scrollResetCallback this = Some id) ->
  TabBar.frameCallbacks (TabBar._resetScroll value animated this)
  = [(TabBar.nextFrameId this, TabBar.ResetScrollCallback value animated)]
  /\ TabBar._scrollResetCallback (TabBar._resetScroll value animated this)
     = Some (TabBar.nextFrameId this)
  /\ TabBar.props (TabBar._resetScroll value animated this) = TabBar.props this
  /\ TabBar._scrollView (TabBar._resetScroll value animated this)
     = TabBar._scrollView this.
Proof.
  intros S Q. unfold TabBar._resetScroll. rewrite S.
  destruct Q as [E | (id & c & E & I)].
  - destruct (TabBar._scrollResetCallback this);
      cbn [TabBar.cancelAnimationFrame TabBar.requestAnimationFrame TabBar.setFrames
           TabBar.frameCallbacks TabBar.nextFrameId TabBar._scrollResetCallback
           TabBar.props TabBar._scrollView];
      rewrite E; repeat split; reflexivity.
  - rewrite I.
    cbn [TabBar.cancelAnimationFrame TabBar.requestAnimationFrame TabBar.setFrames
         TabBar.frameCallbacks TabBar.nextFrameId TabBar._scrollResetCallback
         TabBar.props TabBar._scrollView].
    rewrite E. cbn [filter fst]. rewrite Nat.eqb_refl.
    repeat split; reflexivity.
Qed.

Lemma resets_queue (resets : list (Q * bool)) (this : TabBar.Instance) :
  TabBar.scrollEnabled (TabBar.props this) = true ->
  TabBar.frameCallbacks this = [] ->
  (TabBar.frameCallbacks
     (fold_left (fun s r => TabBar._resetScroll (fst r) (snd r) s) resets this) = []
   \/ exists id c,
        TabBar.frameCallbacks
          (fold_left (fun s r => TabBar._resetScroll (fst r) (snd r) s) resets this)
        = [(id, c)]
        /\ TabBar._scrollResetCallback
             (fold_left (fun s r => TabBar._resetScroll (fst r) (snd r) s) resets this)
           = Some id)
  /\ TabBar.props (fold_left (fun s r => TabBar._resetScroll (fst r) (snd r) s) resets this)
     = TabBar.props this
  /\ TabBar._scrollView
       (fold_left (fun s r => TabBar._resetScroll (fst r) (snd r) s) resets this)
     = TabBar._scrollView this.
Proof.
  intros S E.
  assert (G : forall s,
             TabBar.scrollEnabled (TabBar.props s) = true ->
             (TabBar.frameCallbacks s = []
              \/ exists id c, TabBar.frameCallbacks s = [(id, c)]
                              /\ TabBar._scrollResetCallback s = Some id) ->
             (TabBar.frameCallbacks
                (fold_left (fun s r => TabBar._resetScroll (fst r) (snd r) s) resets s) = []
              \/ exists id c,
                   TabBar.frameCallbacks
                     (fold_left (fun s r => TabBar._resetScroll (fst r) (snd r) s) resets s)
                   = [(id, c)]
                   /\ TabBar._scrollResetCallback
                        (fold_left (fun s r => TabBar._resetScroll (fst r) (snd r) s)
                           resets s)
                      = Some id)
             /\ TabBar.props
                  (fold_left (fun s r => TabBar._resetScroll (fst r) (snd r) s) resets s)
                = TabBar.props s
             /\ TabBar._scrollView
                  (fold_left (fun s r => TabBar._resetScroll (fst r) (snd r) s) resets s)
                = TabBar._scrollView s).
  { induction resets as [|[v a] resets IH]; intros s Ss Qs.
    - cbn [fold_left]. auto.
    - cbn [fold_left fst snd].
      destruct (resetScroll_queue v a s Ss Qs) as (F & I & P & V).
      destruct (IH (TabBar._resetScroll v a s)) as (Q' & P' & V').
      + rewrite P. exact Ss.
      + right. eauto.
      + split; [exact Q'|]. split; congruence. }
  apply G; auto.
Qed.

(** X16. Resets of the scroll position that are requested before the next
    animation frame replace one another: with scrolling enabled, the
    scroll view attached and no callback waiting at the start, any number
    of [_resetScroll] calls lead to one [scrollTo] in the frame, for the
    value and the [animated] of the last call. *)
Theorem resetScroll_last_wins :
  forall (parseFloat : string -> option Q) (resets : list (Q * bool))
         (value : Q) (animated : bool) (this : TabBar.Instance),
    TabBar.scrollEnabled (TabBar.props this) = true ->
    TabBar._scrollView this = true ->
    TabBar.frameCallbacks this = [] ->
    snd (TabBar.animationFrame parseFloat
           (TabBar._resetScroll value animated
              (fold_left (fun s r => TabBar._resetScroll (fst r) (snd r) s) resets this)))
    = [TabBar.ScrollTo
         (TabBar._getScrollAmount parseFloat (TabBar.props this) value) animated]
    /\ TabBar.frameCallbacks
         (fst (TabBar.animationFrame parseFloat
                 (TabBar._resetScroll value animated
                    (fold_left (fun s r => TabBar._resetScroll (fst r) (snd r) s)
                       resets this))))
       = [].
Proof.
  intros parseFloat resets value animated this S V E.
  destruct (resets_queue resets this S E) as (Q' & P & V').
  set (s := fold_left _ resets this) in *.
  destruct (resetScroll_queue value animated s) as (F & _ & P2 & V2);
    [rewrite P; exact S | exact Q' |].
  unfold TabBar.animationFrame. rewrite F.
  cbn [TabBar.runCallbacks TabBar.runCallback TabBar.setFrames TabBar._scrollView
       TabBar.props TabBar.frameCallbacks fst snd app].
  rewrite V2, V', V, P2, P. split; reflexivity.
Qed.

Lemma resetScroll_last_wins_witness :
  snd (TabBar.animationFrame sampleParseFloat
         (TabBar._resetScroll 1 true
            (fold_left (fun s r => TabBar._resetScroll (fst r) (snd r) s)
               [(2, false); (0, true)]
               (TabBar.setScrollView true
                  (TabBar.constructor sampleParseFloat (tabBarProps 0 350 true None))))))
  = [TabBar.ScrollTo
       (TabBar._getScrollAmount sampleParseFloat (tabBarProps 0 350 true None) 1) true].
Proof.
  apply (resetScroll_last_wins sampleParseFloat [(2, false); (0, true)] 1 true
           (TabBar.setScrollView true
              (TabBar.constructor sampleParseFloat (tabBarProps 0 350 true None))));
    reflexivity.
Defined.

(** X17. What the tab bar does with new props, seen at the next animation
    frame (scroll view attached, no callback waiting before): with
    scrolling enabled it scrolls once to the scroll amount of the new
    index, without animation when the number of routes or the layout width
    changed and with animation when only the index changed; it does not
    scroll when none of the three changed, nor when scrolling is
    disabled. *)
Theorem componentDidUpdate_scrolls :
  forall (parseFloat : string -> option Q) (p : TabBar.Props) (this : TabBar.Instance),
    TabBar._scrollView this = true ->
    TabBar.frameCallbacks this = [] ->
    snd (TabBar.animationFrame parseFloat (TabBar.receiveProps p this))
    = if TabBar.scrollEnabled p
      then
        if negb (Nat.eqb
                   (List.length (routes (TabBar.navigationState (TabBar.props this))))
                   (List.length (routes (TabBar.navigationState p))))
           || negb (Qeq_bool (width (TabBar.layout (TabBar.props this)))
                             (width (TabBar.layout p)))
        then [TabBar.ScrollTo
                (TabBar._getScrollAmount parseFloat p (index (TabBar.navigationState p)))
                false]
        else if negb (Qeq_bool (index (TabBar.navigationState (TabBar.props this)))
                               (index (TabBar.navigationState p)))
        then [TabBar.ScrollTo
                (TabBar._getScrollAmount parseFloat p (index (TabBar.navigationState p)))
                true]
        else []
      else [].
Proof.
  intros parseFloat p this V E.
  assert (K : forall v a,
             TabBar.scrollEnabled p = true ->
             snd (TabBar.animationFrame parseFloat
                    (TabBar._resetScroll v a (TabBar.setProps p this)))
             = [TabBar.ScrollTo (TabBar._getScrollAmount parseFloat p v) a]).
  { intros v a S.
    destruct (resetScroll_queue v a (TabBar.setProps p this)) as (F & _ & P & V');
      [exact S | left; exact E |].
    unfold TabBar.animationFrame. rewrite F.
    cbn [TabBar.runCallbacks TabBar.runCallback TabBar.setFrames TabBar._scrollView
         TabBar.props TabBar.frameCallbacks fst snd app].
    rewrite V', P. cbn [TabBar.setProps TabBar._scrollView TabBar.props].
    rewrite V. reflexivity. }
  assert (Z : snd (TabBar.animationFrame parseFloat (TabBar.setProps p this)) = []).
  { unfold TabBar.animationFrame.
    cbn [TabBar.setProps TabBar.frameCallbacks]. rewrite E. reflexivity. }
  unfold TabBar.receiveProps, TabBar.componentDidUpdate.
  cbn [TabBar.setProps TabBar.props].
  destruct (TabBar.scrollEnabled p) eqn:S.
  - destruct (negb (Nat.eqb _ _) || negb (Qeq_bool (width _) _));
      [apply K; reflexivity|].
    destruct (negb (Qeq_bool (index _) _)); [apply K; reflexivity | exact Z].
  - assert (R : forall v a, TabBar._resetScroll v a (TabBar.setProps p this)
                            = TabBar.setProps p this)
      by (intros v a; unfold TabBar._resetScroll;
          cbn [TabBar.setProps TabBar.props]; rewrite S; reflexivity).
    destruct (negb (Nat.eqb _ _) || negb (Qeq_bool (width _) _));
      [rewrite R; exact Z|].
    destruct (negb (Qeq_bool (index _) _)); [rewrite R; exact Z | exact Z].
Qed.

Lemma componentDidUpdate_scrolls_witness :
  snd (TabBar.animationFrame sampleParseFloat
         (TabBar.receiveProps (tabBarProps 2 350 true None)
            (TabBar.setScrollView true
               (TabBar.constructor sampleParseFloat (tabBarProps 0 350 true None)))))
  = [TabBar.ScrollTo
       (TabBar._getScrollAmount sampleParseFloat (tabBarProps 2 350 true None) 2) true].
Proof.
  apply (componentDidUpdate_scrolls sampleParseFloat (tabBarProps 2 350 true None)
           (TabBar.setScrollView true
              (TabBar.constructor sampleParseFloat (tabBarProps 0 350 true None))));
    reflexivity.
Defined.

(** X18. The end of a drag of the tab bar is judged one animation frame
    later, so that a momentum scroll that begins in between is seen: after
    [_handleBeginDrag] and [_handleEndDrag], the frame clears
    [_isManualScroll] when no momentum scroll has begun, and leaves it set
    when one has, until [_handleMomentumScrollEnd]. *)
Theorem endDrag_waits_for_momentum :
  forall (parseFloat : string -> option Q) (this : TabBar.Instance),
    TabBar.frameCallbacks this = [] ->
    TabBar._isManualScroll
      (fst (TabBar.animationFrame parseFloat
              (TabBar._handleEndDrag (TabBar._handleBeginDrag this)))) = false
    /\ TabBar._isManualScroll
         (fst (TabBar.animationFrame parseFloat
                 (TabBar._handleMomentumScrollBegin
                    (TabBar._handleEndDrag (TabBar._handleBeginDrag this))))) = true
    /\ TabBar._isManualScroll
         (TabBar._handleMomentumScrollEnd
            (fst (TabBar.animationFrame parseFloat
                    (TabBar._handleMomentumScrollBegin
                       (TabBar._handleEndDrag (TabBar._handleBeginDrag this))))))
       = false.
Proof.
  intros parseFloat this E.
  unfold TabBar.animationFrame, TabBar._handleMomentumScrollBegin, TabBar._handleEndDrag,
    TabBar._handleBeginDrag, TabBar._handleMomentumScrollEnd,
    TabBar.requestAnimationFrame.
  cbn [snd TabBar.setFlags TabBar.setFrames TabBar.frameCallbacks TabBar.nextFrameId
       TabBar._scrollResetCallback TabBar._isManualScroll TabBar._isMomentumScroll
       TabBar._isIntial].
  rewrite E. cbn. repeat split; reflexivity.
Qed.

Lemma endDrag_waits_for_momentum_witness :
  TabBar._isManualScroll
    (fst (TabBar.animationFrame sampleParseFloat
            (TabBar._handleMomentumScrollBegin
               (TabBar._handleEndDrag
                  (TabBar._handleBeginDrag
                     (TabBar.constructor sampleParseFloat
                        (tabBarProps 0 350 true None))))))) = true.
Proof.
  apply (endDrag_waits_for_momentum sampleParseFloat
           (TabBar.constructor sampleParseFloat (tabBarProps 0 350 true None))).
  reflexivity.
Defined.

(** ** The indicator *)

Lemma indicatorTranslateX_run (isRTL : bool) (position : Node) (w : Q)
    (rs : list Route) (this : Pager) :
  result (TabBar.indicatorTranslateX isRTL position w rs this)
  = (if Qgtb 0 (result (position this)) then 0
     else if Qgtb (result (position this)) (inject_Z (Z.of_nat (List.length rs)) - 1)
     then inject_Z (Z.of_nat (List.length rs)) - 1
     else 0 + (result (position this) - 0)
              / (inject_Z (Z.of_nat (List.length rs)) - 1 - 0)
              * (inject_Z (Z.of_nat (List.length rs)) - 1 - 0))
    * w * (if isRTL then -1 else 1).
Proof.
  unfold TabBar.indicatorTranslateX, Animated.multiply, Animated.interpolate_clamp,
    Animated.num, bind, ret.
  destruct (position this) as [[x s] ev]. reflexivity.
Qed.

(** X19. The default indicator stays under the tabs: for at least two
    routes and a tab width that is not negative, whatever value the
    [position] node has, the translation of the indicator lies between 0
    and the offset of the last tab; in a right-to-left layout it is the
    opposite of that translation. *)
Theorem indicator_stays_in_bar :
  forall (position : Node) (w : Q) (rs : list Route) (this : Pager),
    (2 <= List.length rs)%nat ->
    0 <= w ->
    0 <= result (TabBar.indicatorTranslateX false position w rs this)
      <= (inject_Z (Z.of_nat (List.length rs)) - 1) * w
    /\ result (TabBar.indicatorTranslateX true position w rs this)
       == - result (TabBar.indicatorTranslateX false position w rs this).
Proof.
  intros position w rs this N W.
  rewrite !indicatorTranslateX_run.
  set (x := result (position this)).
  assert (Nq : 2 <= inject_Z (Z.of_nat (List.length rs)))
    by (change 2 with (inject_Z 2); rewrite <- Zle_Qle; lia).
  set (n := inject_Z (Z.of_nat (List.length rs))) in *. clearbody n x.
  split; [|ring].
  destruct (Qgtb 0 x) eqn:A; [nra|].
  destruct (Qgtb x (n - 1)) eqn:B; [nra|].
  apply Qgtb_false in A, B.
  assert (E : 0 + (x - 0) / (n - 1 - 0) * (n - 1 - 0) == x) by (field; lra).
  rewrite E. nra.
Qed.

Lemma indicator_stays_in_bar_witness :
  0 <= result (TabBar.indicatorTranslateX false
                 (PagerView.position glide) 140 threeRoutes (setNow 16 draggedRight))
    <= 280.
Proof.
  apply (indicator_stays_in_bar (PagerView.position glide) 140 threeRoutes
           (setNow 16 draggedRight)).
  - cbn. lia.
  - by_evaluation.
Defined.

(** ** The first frame of a pager *)

(** X20. The first frame after construction starts a transition to the
    initial index: it aims the spring at [-index * (width || 320)] while
    [_position] was seeded with [-index * width].  With a truthy width the
    spring starts on its target; with the width 0 it starts at 0 and is
    aimed [320 * index] away. *)
Theorem first_frame_after_construct :
  forall (integrate : Animated.Integrator) (t : Q) (p : Props),
    0 <= width (layout p) ->
    values (after (Pager.frame integrate t (Pager.construct p))) _index
    = index (navigationState p)
    /\ values (after (Pager.frame integrate t (Pager.construct p))) config_toValue
       = index (navigationState p) * js_or (width (layout p)) 320 * -1
    /\ values (after (Pager.frame integrate t (Pager.construct p))) _position
       = Animated.at_position
           (firstSpringStep integrate t (index (navigationState p)) (Pager.construct p))
    /\ (truthy (width (layout p)) = true ->
        values (Pager.construct p) _position
        == values (after (Pager.frame integrate t (Pager.construct p))) config_toValue)
    /\ (truthy (width (layout p)) = false ->
        values (Pager.construct p) _position == 0
        /\ values (after (Pager.frame integrate t (Pager.construct p))) config_toValue
           == - (320 * index (navigationState p))).
Proof.
  intros integrate t p W.
  destruct (frame_parts integrate t (Pager.construct p)) as [E _].
  change (Qeq_bool (values (Pager.construct p) _gestureState) State.ACTIVE)
    with false in E.
  destruct (onIndexChange_quiet (setNow t (Pager.construct p)) I) as [Q _].
  rewrite Q in E. clear Q.
  change (prevValue (setNow t (Pager.construct p))) with (@None Q) in E.
  cbv iota in E.
  match type of E with context [Pager.whenReleased integrate ?s1] =>
    destruct (whenReleased_starts integrate s1) as (A & B & D & _);
      [reflexivity | | rewrite <- E in A, B, D]
  end.
  - apply swipes_false.
    + unfold swipeDistanceThreshold.
      cbn [values setPrevValue setNow Pager.construct].
      assert (0 <= js_or (width (layout p)) 320)
        by (unfold js_or; destruct (truthy _); lra).
      assert (Eq : js_or (width (layout p)) 320 / 1.75
                   == js_or (width (layout p)) 320 * (4 # 7)) by field.
      rewrite Eq. cbn [Qabs Z.abs Qnum Qden]. lra.
    + cbn. unfold swipeVelocityThreshold. lra.
  - split; [exact A|]. split; [exact B|]. split; [exact D|].
    rewrite B. cbn [values Pager.construct setPrevValue setNow].
    unfold js_or. split; intro T; rewrite T.
    + ring.
    + apply truthy_false in T. split; [rewrite T; ring | ring].
Qed.

Lemma first_frame_after_construct_witness :
  values (Pager.construct (propsAt 2 0)) _position == 0
  /\ values (after (Pager.frame glide 0 (Pager.construct (propsAt 2 0)))) config_toValue
     == - (320 * 2).
Proof.
  destruct (first_frame_after_construct glide 0 (propsAt 2 0)) as (_ & _ & _ & _ & Z).
  - by_evaluation.
  - apply Z. reflexivity.
Defined.

(** ** The width of a tab and the initial offset *)

(** X21. The width in [tabStyle] decides the width of a tab when it is a
    number, or a string that ends with "%" and starts with a finite
    number, which is then a percentage of the layout width; any other
    string is ignored, as if there were no width in the style. *)
Theorem tabWidth_from_style :
  forall (parseFloat : string -> option Q) (l : Layout) (ns : NavigationState)
         (scroll : bool),
    (forall w : Q,
        TabBar._getTabWidth parseFloat
          {| TabBar.layout := l; TabBar.navigationState := ns;
             TabBar.scrollEnabled := scroll;
             TabBar.tabStyle := Some {| TabBar.style_width := TabBar.WidthNumber w |} |}
        = w)
    /\ (forall (s : string) (percent : Q),
          endsWith s "%" = true ->
          parseFloat s = Some percent ->
          TabBar._getTabWidth parseFloat
            {| TabBar.layout := l; TabBar.navigationState := ns;
               TabBar.scrollEnabled := scroll;
               TabBar.tabStyle := Some {| TabBar.style_width := TabBar.WidthString s |} |}
          = width l * (percent / 100))
    /\ (forall s : string,
          endsWith s "%" = false \/ parseFloat s = None ->
          TabBar._getTabWidth parseFloat
            {| TabBar.layout := l; TabBar.navigationState := ns;
               TabBar.scrollEnabled := scroll;
               TabBar.tabStyle := Some {| TabBar.style_width := TabBar.WidthString s |} |}
          = TabBar._getTabWidth parseFloat
              {| TabBar.layout := l; TabBar.navigationState := ns;
                 TabBar.scrollEnabled := scroll; TabBar.tabStyle := None |}).
Proof.
  intros parseFloat l ns scroll. split; [reflexivity|]. split.
  - intros s percent E P. unfold TabBar._getTabWidth.
    cbn [TabBar.tabStyle TabBar.style_width TabBar.layout]. rewrite E, P. reflexivity.
  - intros s [E|P]; unfold TabBar._getTabWidth;
      cbn [TabBar.tabStyle TabBar.style_width TabBar.layout].
    + rewrite E. reflexivity.
    + rewrite P. destruct (endsWith s "%"); reflexivity.
Qed.

Lemma tabWidth_from_style_witness :
  TabBar._getTabWidth sampleParseFloat
    {| TabBar.layout := {| width := 350; height := 48 |};
       TabBar.navigationState := {| index := 0; routes := threeRoutes |};
       TabBar.scrollEnabled := true;
       TabBar.tabStyle := Some {| TabBar.style_width := TabBar.WidthString "50%" |} |}
  = 350 * (50 / 100)
  /\ TabBar._getTabWidth sampleParseFloat
       {| TabBar.layout := {| width := 350; height := 48 |};
          TabBar.navigationState := {| index := 0; routes := threeRoutes |};
          TabBar.scrollEnabled := true;
          TabBar.tabStyle := Some {| TabBar.style_width := TabBar.WidthString "120" |} |}
     = TabBar._getTabWidth sampleParseFloat
         {| TabBar.layout := {| width := 350; height := 48 |};
            TabBar.navigationState := {| index := 0; routes := threeRoutes |};
            TabBar.scrollEnabled := true; TabBar.tabStyle := None |}.
Proof.
  split.
  - apply (proj1 (proj2 (tabWidth_from_style sampleParseFloat
                           {| width := 350; height := 48 |}
                           {| index := 0; routes := threeRoutes |} true)));
      reflexivity.
  - apply (proj2 (proj2 (tabWidth_from_style sampleParseFloat
                           {| width := 350; height := 48 |}
                           {| index := 0; routes := threeRoutes |} true))).
    left. reflexivity.
Defined.

(** X22. The constructor gives the scroll view an initial offset exactly
    when scrolling is enabled and the layout width is not 0; the offset is
    then the scroll amount of the initial index, within the range of the
    scroll view, with [y = 0]. *)
Theorem initialOffset_in_range :
  forall (parseFloat : string -> option Q) (p : TabBar.Props),
    match TabBar.initialOffset (TabBar.constructor parseFloat p) with
    | Some (x, y) =>
        TabBar.scrollEnabled p = true
        /\ ~ width (TabBar.layout p) == 0
        /\ x = TabBar._getScrollAmount parseFloat p (index (TabBar.navigationState p))
        /\ 0 <= x <= maxDistance parseFloat p
        /\ y = 0
    | None => TabBar.scrollEnabled p = false \/ width (TabBar.layout p) == 0
    end.
Proof.
  intros parseFloat p. cbn [TabBar.constructor TabBar.initialOffset].
  destruct (TabBar.scrollEnabled p); cbn [andb]; [|left; reflexivity].
  destruct (truthy (width (TabBar.layout p))) eqn:T.
  - split; [reflexivity|]. split.
    + intro Z. apply truthy_false in Z. congruence.
    + split; [reflexivity|]. split; [|reflexivity].
      unfold TabBar._getScrollAmount, TabBar._normalizeScrollValue, maxDistance.
      cbv zeta.
      set (w := width (TabBar.layout p)).
      set (full := TabBar._getTabWidth parseFloat p * TabBar.numberOfRoutes p).
      set (v := TabBar._getTabWidth parseFloat p
                * (index (TabBar.navigationState p) + 1 / 2) - w / 2).
      clearbody v full w. split; minmax; lra.
  - right. apply truthy_false. exact T.
Qed.
